(** * MaxMind GeoIP API server: a shallow embedding of [main.py] and [config.py]

    The development follows the layout of the program:

    - [PyStr]      the string operations of Python the program relies on;
    - [ipaddress]  the standard library's address parser behind [validate_ip];
    - [Lookup]     the response document built and pruned by [lookup_ip];
    - [Server]     the file system, the effects, [download_database],
                   [update_scheduler], the handlers and the route table;
    - [Shape], [Trace], [Fixtures]  the words the statements are made of
                   and the concrete worlds of the examples;
    - [PruneFacts], [RunFacts], [RefreshFacts], [LookupFacts]  lemmas;
    - [LookupClaims], [RefreshClaims]  the properties of the specification;
    - [AddressFacts], [DocumentFacts], [RouteFacts], [ClientFacts],
      [InstallFacts]  further properties of the program, stated with the
                   words of [Quads], [Document], [Answers], [Installs] and
                   the worlds of [MoreFixtures].

    Strings are Python [str] values, file contents are byte lists, integers
    are [Z], floating point numbers are the primitive binary64 floats. *)

From Stdlib Require Import ZArith Ascii String List Bool Lia DecimalString.
From Stdlib Require Import Floats.PrimFloat.
From stdpp Require Import base decidable option list countable strings gmap.

Import ListNotations.
Local Open Scope string_scope.
Local Open Scope Z_scope.

(** ** Python strings *)

Module PyStr.

Definition chars (s : string) : list ascii := list_ascii_of_string s.

Definition len (s : string) : Z := Z.of_nat (String.length s).

(** [not s] for a string: the empty string is the only falsy one. *)
Definition is_empty (s : string) : bool :=
  match s with EmptyString => true | String _ _ => false end.

(** [c in s] for a one-character needle. *)
Definition contains (c : ascii) (s : string) : bool :=
  existsb (Ascii.eqb c) (chars s).

(** [s.split(sep)] for a one-character separator: always at least one
    field, empty fields kept. *)
Fixpoint split (sep : ascii) (s : string) : list string :=
  match s with
  | EmptyString => [EmptyString]
  | String c rest =>
      if Ascii.eqb c sep then EmptyString :: split sep rest
      else match split sep rest with
           | field :: fields => String c field :: fields
           | [] => [String c EmptyString]
           end
  end.

(** [s.partition(sep)]: the text before the first separator, whether a
    separator was found, the text after it. *)
Fixpoint partition (sep : ascii) (s : string) : string * bool * string :=
  match s with
  | EmptyString => (EmptyString, false, EmptyString)
  | String c rest =>
      if Ascii.eqb c sep then (EmptyString, true, rest)
      else let '(before, found, after) := partition sep rest in
           (String c before, found, after)
  end.

Definition startswith (s pre : string) : bool := String.prefix pre s.

(** [s.endswith(suffix)] *)
Definition endswith (s suffix : string) : bool :=
  let n := String.length s in
  let k := String.length suffix in
  (k <=? n)%nat && String.eqb (String.substring (n - k) k s) suffix.

Definition code (c : ascii) : Z := Z.of_N (N_of_ascii c).

(** [c.isascii() and c.isdigit()] *)
Definition is_ascii_digit (c : ascii) : bool :=
  (48 <=? code c) && (code c <=? 57).

(** value of a hexadecimal digit, [None] outside [0-9A-Fa-f] *)
Definition hex_value (c : ascii) : option Z :=
  let n := code c in
  if (48 <=? n) && (n <=? 57) then Some (n - 48)
  else if (65 <=? n) && (n <=? 70) then Some (n - 55)
  else if (97 <=? n) && (n <=? 102) then Some (n - 87)
  else None.

(** [int(s, 10)] on a string of ASCII digits *)
Definition int10 (s : string) : Z :=
  fold_left (fun acc c => 10 * acc + (code c - 48)) (chars s) 0.

(** [int(s, 16)]: [None] stands for [ValueError] (empty string or a
    character that is no hexadecimal digit). *)
Definition int16 (s : string) : option Z :=
  if is_empty s then None
  else fold_left (fun acc c =>
                    match acc, hex_value c with
                    | Some a, Some d => Some (16 * a + d)
                    | _, _ => None
                    end) (chars s) (Some 0).

Definition hex_digit (d : Z) : ascii :=
  ascii_of_N (Z.to_N (if d <? 10 then 48 + d else 87 + d)).

Fixpoint hex_digits (fuel : nat) (n : Z) (acc : string) : string :=
  match fuel with
  | O => acc
  | S fuel' =>
      let acc' := String (hex_digit (n mod 16)) acc in
      if n / 16 =? 0 then acc' else hex_digits fuel' (n / 16) acc'
  end.

(** ['%x' % n] for [0 <= n < 2**16] *)
Definition format_x (n : Z) : string := hex_digits 4 n EmptyString.

(** [os.path.basename]: the text after the last ['/']. *)
Definition basename (p : string) : string :=
  List.last (split "/" p) EmptyString.

End PyStr.

(** ** [ipaddress.ip_address] on a string (CPython 3.11)

  [None] stands for the [AddressValueError] / [ValueError] the library
  raises; a result carries the integer value of the address. *)

Module ipaddress.
Import PyStr.

Inductive address : Type :=
| IPv4Address (ip : Z)
| IPv6Address (ip : Z) (scope_id : option string).

(** [_BaseV4._parse_octet] *)
Definition parse_octet (octet_str : string) : option Z :=
  if is_empty octet_str then None
  else if negb (forallb is_ascii_digit (chars octet_str)) then None
  else if 3 <? len octet_str then None
  else if negb (String.eqb octet_str "0") && startswith octet_str "0" then None
  else let octet_int := int10 octet_str in
       if 255 <? octet_int then None else Some octet_int.

(** [int.from_bytes(map(parse, octets), 'big')], failing with the first
    octet that fails *)
Fixpoint from_octets (octets : list string) (acc : Z) : option Z :=
  match octets with
  | [] => Some acc
  | o :: rest =>
      match parse_octet o with
      | Some v => from_octets rest (256 * acc + v)
      | None => None
      end
  end.

(** [_BaseV4._ip_int_from_string] *)
Definition v4_int_from_string (ip_str : string) : option Z :=
  if is_empty ip_str then None
  else let octets := split "." ip_str in
       if negb (length octets =? 4)%nat then None
       else from_octets octets 0.

(** [IPv4Address(address)] for a string *)
Definition parse_v4 (addr_str : string) : option Z :=
  if contains "/" addr_str then None else v4_int_from_string addr_str.

(** [_BaseV6._parse_hextet] *)
Definition parse_hextet (hextet_str : string) : option Z :=
  if negb (forallb (fun c => bool_decide (is_Some (hex_value c))) (chars hextet_str))
  then None
  else if 4 <? len hextet_str then None
  else int16 hextet_str.

(** the loop that looks for an empty part strictly between the two ends:
    [Some None] no such part, [Some (Some i)] exactly one, at index [i],
    [None] more than one *)
Fixpoint find_skip (inner : list string) (i : nat) (found : option nat)
  : option (option nat) :=
  match inner with
  | [] => Some found
  | p :: rest =>
      if is_empty p then
        match found with
        | Some _ => None
        | None => find_skip rest (S i) (Some i)
        end
      else find_skip rest (S i) found
  end.

(** the two loops that shift the hextets into the integer *)
Fixpoint shift_hextets (hextets : list string) (acc : Z) : option Z :=
  match hextets with
  | [] => Some acc
  | h :: rest =>
      match parse_hextet h with
      | Some v => shift_hextets rest (Z.lor (Z.shiftl acc 16) v)
      | None => None
      end
  end.

Definition HEXTET_COUNT : nat := 8.

(** [_BaseV6._ip_int_from_string] *)
Definition v6_int_from_string (ip_str : string) : option Z :=
  if is_empty ip_str then None
  else
    let parts := split ":" ip_str in
    if (length parts <? 3)%nat then None
    else
      let last_part := List.last parts EmptyString in
      let parts' :=
        if contains "." last_part then
          match parse_v4 last_part with
          | None => None
          | Some ipv4_int =>
              Some (removelast parts
                      ++ [format_x (Z.land (Z.shiftr ipv4_int 16) 65535);
                          format_x (Z.land ipv4_int 65535)])%list
          end
        else Some parts in
      match parts' with
      | None => None
      | Some parts =>
          let n := length parts in
          if (HEXTET_COUNT + 1 <? n)%nat then None
          else
            let first_empty := is_empty (hd EmptyString parts) in
            let last_empty := is_empty (List.last parts EmptyString) in
            match find_skip (removelast (tl parts)) 1 None with
            | None => None
            | Some (Some skip_index) =>
                let parts_hi := if first_empty then (skip_index - 1)%nat else skip_index in
                let parts_lo0 := (n - skip_index - 1)%nat in
                let parts_lo := if last_empty then (parts_lo0 - 1)%nat else parts_lo0 in
                if first_empty && negb (parts_hi =? 0)%nat then None
                else if last_empty && negb (parts_lo =? 0)%nat then None
                else if (HEXTET_COUNT <? parts_hi + parts_lo + 1)%nat then None
                else
                  let parts_skipped := (HEXTET_COUNT - (parts_hi + parts_lo))%nat in
                  match shift_hextets (firstn parts_hi parts) 0 with
                  | None => None
                  | Some hi =>
                      shift_hextets (skipn (n - parts_lo) parts)
                        (Z.shiftl hi (16 * Z.of_nat parts_skipped))
                  end
            | Some None =>
                if negb (n =? HEXTET_COUNT)%nat then None
                else if first_empty then None
                else if last_empty then None
                else shift_hextets parts 0
            end
      end.

(** [IPv6Address._split_scope_id] *)
Definition split_scope_id (ip_str : string) : option (string * option string) :=
  let '(addr, sep, scope_id) := partition "%" ip_str in
  if negb sep then Some (addr, None)
  else if is_empty scope_id || contains "%" scope_id then None
  else Some (addr, Some scope_id).

(** [IPv6Address(address)] for a string *)
Definition parse_v6 (addr_str : string) : option (Z * option string) :=
  if contains "/" addr_str then None
  else match split_scope_id addr_str with
       | None => None
       | Some (addr, scope_id) =>
           match v6_int_from_string addr with
           | Some ip => Some (ip, scope_id)
           | None => None
           end
       end.

(** [ipaddress.ip_address(address)]: IPv4 first, then IPv6, else
    [ValueError] *)
Definition ip_address (addr : string) : option address :=
  match parse_v4 addr with
  | Some ip => Some (IPv4Address ip)
  | None =>
      match parse_v6 addr with
      | Some (ip, scope_id) => Some (IPv6Address ip scope_id)
      | None => None
      end
  end.

End ipaddress.

(** [main.validate_ip] *)
Definition validate_ip (ip : string) : bool :=
match ipaddress.ip_address ip with
| Some _ => true
| None => false
end.

(** ** The response document of [lookup_ip] *)

Module Lookup.

(** *** Python values that occur in the document *)

#[warnings="-register-all"] Inductive value : Type :=
| VNone
| VBool (b : bool)
| VInt (n : Z)
| VFloat (x : float)
| VStr (s : string)
| VList (items : list value)
| VDict (fields : list (string * value)).

(** A [dict] keeps its keys in insertion order. *)
Abbreviation dict := (list (string * value)).

Definition keys (d : dict) : list string := map fst d.
Definition values (d : dict) : list value := map snd d.

(** [v is None] *)
Definition is_none (v : value) : bool :=
  match v with VNone => true | _ => false end.

(** [isinstance(v, dict)] *)
Definition is_dict (v : value) : bool :=
  match v with VDict _ => true | _ => false end.

(** [bool(v)] *)
Definition truthy (v : value) : bool :=
  match v with
  | VNone => false
  | VBool b => b
  | VInt n => negb (n =? 0)
  | VFloat x => negb (PrimFloat.eqb x 0%float)
  | VStr s => negb (PyStr.is_empty s)
  | VList items => match items with [] => false | _ :: _ => true end
  | VDict fields => match fields with [] => false | _ :: _ => true end
  end.

(** [any(xs)] *)
Definition any (xs : list value) : bool := existsb truthy xs.

(** [d[k]]; [None] where Python raises [KeyError] *)
Fixpoint dict_get (k : string) (d : dict) : option value :=
  match d with
  | [] => None
  | (k', v) :: rest => if String.eqb k k' then Some v else dict_get k rest
  end.

(** [d[k] = v]: the value is replaced in place, a new key goes last *)
Fixpoint dict_set (k : string) (v : value) (d : dict) : dict :=
  match d with
  | [] => [(k, v)]
  | (k', v') :: rest =>
      if String.eqb k k' then (k', v) :: rest else (k', v') :: dict_set k v rest
  end.

(** [del d[k]] *)
Fixpoint dict_del (k : string) (d : dict) : dict :=
  match d with
  | [] => []
  | (k', v') :: rest =>
      if String.eqb k k' then rest else (k', v') :: dict_del k rest
  end.

(** *** The record returned by [reader.city]

    A group that is [None] (or otherwise falsy) is [None] here; a field
    that is [None] is [None]; an attribute [hasattr] does not find is [None]
    as well. *)

Record Location := {
  latitude : option float;
  longitude : option float;
  accuracy_radius : option Z;
  time_zone : option string }.

Record City := { city_name : option string; city_geoname_id : option Z }.

Record Postal := { code : option string }.

Record Continent := {
  continent_code : option string;
  continent_geoname_id : option Z;
  continent_name : option string }.

Record Country := {
  iso_code : option string;
  geoname_id : option Z;
  name : option string;
  is_in_european_union : option bool }.

Record Traits := {
  is_anonymous_proxy : option bool;
  is_satellite_provider : option bool }.

Record Subdivision := {
  sub_iso_code : option string;
  sub_geoname_id : option Z;
  sub_name : option string }.

Record CityResponse := {
  location : option Location;
  city : option City;
  postal : option Postal;
  continent : option Continent;
  country : option Country;
  registered_country : option Country;
  traits : option Traits;
  subdivisions : list Subdivision }.

(** [float(x) if grp and x else None], read on the field of a present group *)
Definition float_or_none (x : option float) : value :=
  match x with
  | Some f => if truthy (VFloat f) then VFloat f else VNone
  | None => VNone
  end.

(** [int(x) if grp and x else None] *)
Definition int_or_none (x : option Z) : value :=
  match x with
  | Some n => if truthy (VInt n) then VInt n else VNone
  | None => VNone
  end.

(** [str(x) if grp and x else None] *)
Definition str_or_none (x : option string) : value :=
  match x with
  | Some s => if truthy (VStr s) then VStr s else VNone
  | None => VNone
  end.

(** [bool(x) if grp and hasattr(grp, name) else None] *)
Definition bool_or_none (x : option bool) : value :=
  match x with
  | Some b => VBool b
  | None => VNone
  end.

(** [f(grp.field) if grp and ... else None]: a falsy group gives [None] *)
Definition of_group {G A : Type} (grp : option G) (field : G -> option A)
    (conv : option A -> value) : value :=
  match grp with
  | Some g => conv (field g)
  | None => VNone
  end.

Definition country_fields (c : option Country) : dict :=
  [ ("iso_code", of_group c iso_code str_or_none);
    ("geoname_id", of_group c geoname_id int_or_none);
    ("name", of_group c name str_or_none);
    ("is_in_european_union", of_group c is_in_european_union bool_or_none) ].

Definition subdivision_fields (s : Subdivision) : dict :=
  [ ("iso_code", str_or_none (sub_iso_code s));
    ("geoname_id", int_or_none (sub_geoname_id s));
    ("name", str_or_none (sub_name s)) ].

(** the dictionary literal of [lookup_ip], followed by the loop that
    appends one entry per subdivision *)
Definition build_result (ip_address : string) (response : CityResponse) : dict :=
  let loc := location response in
  let cty := city response in
  let con := continent response in
  let trt := traits response in
  [ ("ip", VStr ip_address);
    ("location", VDict
       [ ("latitude", of_group loc latitude float_or_none);
         ("longitude", of_group loc longitude float_or_none);
         ("accuracy_radius", of_group loc accuracy_radius int_or_none);
         ("time_zone", of_group loc time_zone str_or_none) ]);
    ("city", VDict
       [ ("name", of_group cty city_name str_or_none);
         ("geoname_id", of_group cty city_geoname_id int_or_none) ]);
    ("postal", VDict
       [ ("code", of_group (postal response) code str_or_none) ]);
    ("continent", VDict
       [ ("code", of_group con continent_code str_or_none);
         ("geoname_id", of_group con continent_geoname_id int_or_none);
         ("name", of_group con continent_name str_or_none) ]);
    ("country", VDict (country_fields (country response)));
    ("registered_country", VDict (country_fields (registered_country response)));
    ("traits", VDict
       [ ("is_anonymous_proxy", of_group trt is_anonymous_proxy bool_or_none);
         ("is_satellite_provider", of_group trt is_satellite_provider bool_or_none) ]);
    ("subdivisions",
       VList (map (fun s => VDict (subdivision_fields s)) (subdivisions response))) ].

(** *** Pruning *)

(** the condition of the first comprehension:
    [v is not None and (not isinstance(v, dict) or any(v.values()))] *)
Definition keep_top (kv : string * value) : bool :=
  let v := snd kv in
  negb (is_none v)
  && (negb (is_dict v)
      || match v with VDict fields => any (values fields) | _ => false end).

(** the condition of the inner comprehension: [v is not None] *)
Definition keep_field (kv : string * value) : bool := negb (is_none (snd kv)).

(** the body of [for key in list(result.keys())] *)
Definition prune_key (result : dict) (key : string) : dict :=
  match dict_get key result with
  | Some (VDict fields) =>
      let fields' := List.filter keep_field fields in
      let result' := dict_set key (VDict fields') result in
      if negb (truthy (VDict fields')) then dict_del key result' else result'
  | _ => result
  end.

(** the two statements under [# Remove any empty nested dictionaries] *)
Definition prune (result : dict) : dict :=
  let result := List.filter keep_top result in
  fold_left prune_key (keys result) result.

End Lookup.

(** ** The server: files, effects, refresh, handlers, routes *)

Module Server.

Abbreviation bytes := (list Byte.byte).

#[global] Instance byte_eq_dec : EqDecision Byte.byte := Byte.byte_eq_dec.

(** *** Paths and files

    The program touches two directories: [BASE_DIR / 'assets'] and ['/tmp'].
    A path is a name under one of them; [BASE_DIR] is taken to lie outside
    ['/tmp'], and a member name is read relative to ['/tmp'].  A node is a
    regular file or a directory; the directories above a path are not
    represented. *)

Inductive path : Type :=
| Assets (rel : string)
| Tmp (rel : string).

#[global] Instance path_eq_dec : EqDecision path.
Proof. solve_decision. Defined.

#[global] Instance path_countable : Countable path.
Proof.
  refine (inj_countable'
            (fun p => match p with Assets n => inl n | Tmp n => inr n end)
            (fun s => match s with inl n => Assets n | inr n => Tmp n end) _).
  intros []; reflexivity.
Defined.

Inductive node : Type :=
| File (data : bytes)
| Dir.

#[global] Instance node_eq_dec : EqDecision node.
Proof. solve_decision. Defined.

Abbreviation FS := (gmap path node).

(** [config.DB_PATH] *)
Definition DB_PATH : path := Assets "GeoLite2-City.mmdb".

(** [config.UPDATE_INTERVAL] *)
Definition UPDATE_INTERVAL : Z := 86400.

(** [db_archive = BASE_DIR / 'assets/GeoLite2-City.tar.gz'], the local
    variable of [download_database] and of [download_database_archive] *)
Definition db_archive : path := Assets "GeoLite2-City.tar.gz".

(** [os.path.join(d, b)] for a relative [b] *)
Definition path_join (d : path) (b : string) : path :=
  let join n :=
    if PyStr.is_empty n || PyStr.endswith n "/" then n ++ b else n ++ "/" ++ b in
  match d with
  | Assets n => Assets (join n)
  | Tmp n => Tmp (join n)
  end.

Definition path_rel (p : path) : string :=
  match p with Assets n => n | Tmp n => n end.

(** *** Archives *)

(** the member types of a GeoLite2 archive: regular files and directories *)
Inductive member_type : Type :=
| REGTYPE (content : bytes)
| DIRTYPE.

Record TarInfo := { member_name : string; member_kind : member_type }.

(** *** Exceptions *)

Inductive exn : Type :=
| HTTPException (status_code : Z) (detail : string)
| ValueError (msg : string)
| ClientError (msg : string)
| ReadError (msg : string)
| IsADirectoryError (p : path)
| FileNotFoundError (p : path)
| SameFileError (p : path)
| GeoIP2Error (msg : string).

Definition str_of_Z (n : Z) : string :=
  DecimalString.NilZero.string_of_int (Z.to_int n).

(** [str(e)]; for [HTTPException] the text Starlette gives,
    [f"{status_code}: {detail}"]; for the errors of the operating system the
    error text, without the path Python appends to it *)
Definition exn_str (e : exn) : string :=
  match e with
  | HTTPException status_code detail => str_of_Z status_code ++ ": " ++ detail
  | ValueError msg => msg
  | ClientError msg => msg
  | ReadError msg => msg
  | IsADirectoryError _ => "[Errno 21] Is a directory"
  | FileNotFoundError _ => "[Errno 2] No such file or directory"
  | SameFileError _ => "source and destination are the same file"
  | GeoIP2Error msg => msg
  end.

(** *** The world outside the program *)

Inductive HttpResult : Type :=
| ConnectionFailed (msg : string)
| HttpResponse (status : Z) (body : bytes).

Record Env := {
  (** [config.MAXMIND_LICENSE_KEY = os.getenv('MAXMIND_LICENSE_KEY')] *)
  MAXMIND_LICENSE_KEY : option string;
  (** [session.get(url)] followed by [response.read()], for the n-th
      request the process makes *)
  session_get : nat -> string -> HttpResult;
  (** [tarfile.open(f, 'r:gz').getmembers()] on the content of [f];
      [None] when the content is no gzip-compressed tar archive *)
  tar_getmembers : bytes -> option (list TarInfo);
  (** [Reader(f).city(ip)] on the content of [f]: the record, or the text
      of the error the reader raises *)
  reader_city : bytes -> string -> Lookup.CityResponse + string }.

(** what can be observed of a run: log lines, outbound requests, the state
    of the file system after each write, the opening of the database
    reader, the scheduler's sleep *)
Inductive Event : Type :=
| LogInfo (msg : string)
| LogError (msg : string)
| HttpGet (url : string)
| FsState (files : FS)
| ReaderOpen (p : path)
| Sleep (seconds : Z).

Record World := { fs : FS; requests : nat }.

Record Outcome (A : Type) := {
  result : A + exn;
  world : World;
  events : list Event }.

Arguments result {A} _.
Arguments world {A} _.
Arguments events {A} _.

(** a computation: runs in a world, returns or raises, leaves a world and
    the events it caused *)
Definition M (A : Type) : Type := World -> Outcome A.

Definition ret {A} (a : A) : M A :=
  fun w => {| result := inl a; world := w; events := [] |}.

Definition raise {A} (e : exn) : M A :=
  fun w => {| result := inr e; world := w; events := [] |}.

Definition bind {A B} (m : M A) (f : A -> M B) : M B :=
  fun w =>
    let o := m w in
    match result o with
    | inl a =>
        let o' := f a (world o) in
        {| result := result o'; world := world o';
           events := (events o ++ events o')%list |}
    | inr e => {| result := inr e; world := world o; events := events o |}
    end.

(** [try: m  except Exception as e: handler e] *)
Definition try_except {A} (m : M A) (handler : exn -> M A) : M A :=
  fun w =>
    let o := m w in
    match result o with
    | inl a => o
    | inr e =>
        let o' := handler e (world o) in
        {| result := result o'; world := world o';
           events := (events o ++ events o')%list |}
    end.

Notation "'do' x <- m ; k" := (bind m (fun x => k))
  (at level 10, x name, m at level 100, k at level 200).
Notation "m ;;; k" := (bind m (fun _ => k))
  (at level 100, k at level 200, right associativity).

Definition emit (ev : Event) : M unit :=
  fun w => {| result := inl tt; world := w; events := [ev] |}.

Definition get_fs : M FS :=
  fun w => {| result := inl (fs w); world := w; events := [] |}.

(** every write is observable *)
Definition put_fs (files : FS) : M unit :=
  fun w => {| result := inl tt;
              world := {| fs := files; requests := requests w |};
              events := [FsState files] |}.

(** [if cond: raise e] *)
Definition raise_if (cond : bool) (e : exn) : M unit :=
  if cond then raise e else ret tt.

Definition logging_info (msg : string) : M unit := emit (LogInfo msg).
Definition logging_error (msg : string) : M unit := emit (LogError msg).

(** *** File operations *)

(** [os.path.exists(p)] *)
Definition os_path_exists (p : path) : M bool :=
  do files <- get_fs ; ret (bool_decide (is_Some (files !! p))).

(** [open(p, 'wb')]: the file is created or truncated *)
Definition open_wb (p : path) : M unit :=
  do files <- get_fs ;
  match files !! p with
  | Some Dir => raise (IsADirectoryError p)
  | _ => put_fs (<[p := File []]> files)
  end.

(** [f.write(buf)] on a file opened for writing at its end *)
Definition write (p : path) (buf : bytes) : M unit :=
  do files <- get_fs ;
  match files !! p with
  | Some (File data) => put_fs (<[p := File (data ++ buf)%list]> files)
  | _ => raise (FileNotFoundError p)
  end.

Fixpoint write_all (p : path) (bufs : list bytes) : M unit :=
  match bufs with
  | [] => ret tt
  | buf :: rest => write p buf ;;; write_all p rest
  end.

(** the buffers of [while True: buf = read(size); if not buf: break] *)
Fixpoint read_chunks (fuel : nat) (size : nat) (data : bytes) : list bytes :=
  match fuel with
  | O => []
  | S fuel' =>
      match take size data with
      | [] => []
      | buf => buf :: read_chunks fuel' size (drop size data)
      end
  end.

Definition chunks (size : nat) (data : bytes) : list bytes :=
  read_chunks (length data) size data.

(** [shutil.COPY_BUFSIZE] and [tarfile]'s copy buffer *)
Definition COPY_BUFSIZE : nat := 64 * 1024.
Definition TAR_BUFSIZE : nat := 16 * 1024.

(** [async with aiofiles.open(p, 'wb') as f: await f.write(data)] *)
Definition write_file (p : path) (data : bytes) : M unit :=
  open_wb p ;;; write p data.

(** [tarfile.open(p, 'r:gz')] with [tar.getmembers()] *)
Definition tarfile_open (env : Env) (p : path) : M (list TarInfo) :=
  do files <- get_fs ;
  match files !! p with
  | None => raise (FileNotFoundError p)
  | Some Dir => raise (IsADirectoryError p)
  | Some (File data) =>
      match tar_getmembers env data with
      | None => raise (ReadError "not a gzip file")
      | Some members => ret members
      end
  end.

(** [tar.extract(member, '/tmp')] (CPython 3.11): a regular file is written
    in blocks, a directory is made unless something is already there *)
Definition tar_extract (member : TarInfo) : M unit :=
  let target := Tmp (member_name member) in
  match member_kind member with
  | REGTYPE content =>
      open_wb target ;;; write_all target (chunks TAR_BUFSIZE content)
  | DIRTYPE =>
      do files <- get_fs ;
      match files !! target with
      | None => put_fs (<[target := Dir]> files)
      | Some _ => ret tt
      end
  end.

(** [shutil.copyfile(src, dst)]: the source is opened first, then the
    destination, and the data goes over in blocks *)
Definition shutil_copyfile (src dst : path) : M unit :=
  do files <- get_fs ;
  raise_if (bool_decide (src = dst) && bool_decide (is_Some (files !! src)))
           (SameFileError src) ;;;
  match files !! src with
  | None => raise (FileNotFoundError src)
  | Some Dir => raise (IsADirectoryError src)
  | Some (File data) =>
      open_wb dst ;;; write_all dst (chunks COPY_BUFSIZE data)
  end.

(** [if os.path.isdir(dst): dst = os.path.join(dst, os.path.basename(src))] *)
Definition copy2_target (files : FS) (src dst : path) : path :=
  match files !! dst with
  | Some Dir => path_join dst (PyStr.basename (path_rel src))
  | _ => dst
  end.

(** [shutil.copy2(src, dst)]: into [dst] when it is a directory; the
    metadata [copystat] carries over is not represented *)
Definition shutil_copy2 (src dst : path) : M unit :=
  do files <- get_fs ;
  shutil_copyfile src (copy2_target files src dst).

(** [os.remove(p)] *)
Definition os_remove (p : path) : M unit :=
  do files <- get_fs ;
  match files !! p with
  | None => raise (FileNotFoundError p)
  | Some Dir => raise (IsADirectoryError p)
  | Some (File _) => put_fs (delete p files)
  end.

(** *** The outbound request *)

Definition http_get (env : Env) (url : string) : M HttpResult :=
  fun w =>
    {| result := inl (session_get env (requests w) url);
       world := {| fs := fs w; requests := S (requests w) |};
       events := [HttpGet url] |}.

(** *** [download_database] *)

(** [next((m for m in members if m.name.endswith('.mmdb')), None)] *)
Definition first_mmdb (members : list TarInfo) : option TarInfo :=
  List.find (fun m => PyStr.endswith (member_name m) ".mmdb") members.

(** the f-string [url] *)
Definition download_url (key : string) : string :=
  "https://download.maxmind.com/app/geoip_download?edition_id=GeoLite2-City&suffix=tar.gz&license_key="
  ++ key.

(** the [try] block of [download_database]; a key that is [None] and a key
    that is empty are both falsy *)
Definition download_database_body (env : Env) : M bool :=
  let key := default EmptyString (MAXMIND_LICENSE_KEY env) in
  raise_if (PyStr.is_empty key) (ValueError "MaxMind license key not configured") ;;;
  let url := download_url key in
  do response <- http_get env url ;
  match response with
  | ConnectionFailed msg => raise (ClientError msg)
  | HttpResponse status body =>
      raise_if (negb (status =? 200))
               (HTTPException status "Failed to download database") ;;;
      write_file db_archive body ;;;
      do members <- tarfile_open env db_archive ;
      match first_mmdb members with
      | None => raise (ValueError "No .mmdb file found in archive")
      | Some mmdb_file =>
          tar_extract mmdb_file ;;;
          let temp_db := Tmp (member_name mmdb_file) in
          shutil_copy2 temp_db DB_PATH ;;;
          os_remove temp_db
      end ;;;
      logging_info "Successfully updated MaxMind database" ;;;
      ret true
  end.

Definition download_database (env : Env) : M bool :=
  try_except (download_database_body env)
    (fun e => logging_error ("Error updating database: " ++ exn_str e) ;;;
              ret false).

(** *** [update_scheduler]: the first [ticks] rounds of [while True] *)

Definition asyncio_sleep (seconds : Z) : M unit := emit (Sleep seconds).

Fixpoint update_scheduler (env : Env) (ticks : nat) : M unit :=
  match ticks with
  | O => ret tt
  | S ticks' =>
      download_database env ;;;
      asyncio_sleep UPDATE_INTERVAL ;;;
      update_scheduler env ticks'
  end.

(** *** [lookup_ip] *)

(** [with Reader(p) as reader: reader.city(ip)] *)
Definition reader_lookup (env : Env) (p : path) (ip : string)
  : M Lookup.CityResponse :=
  emit (ReaderOpen p) ;;;
  do files <- get_fs ;
  match files !! p with
  | None => raise (FileNotFoundError p)
  | Some Dir => raise (IsADirectoryError p)
  | Some (File data) =>
      match reader_city env data ip with
      | inl response => ret response
      | inr msg => raise (GeoIP2Error msg)
      end
  end.

(** the [try] block of [lookup_ip] *)
Definition lookup_ip_body (env : Env) (ip_address : string) : M Lookup.dict :=
  raise_if (negb (validate_ip ip_address))
           (HTTPException 400 "Invalid IP address") ;;;
  do present <- os_path_exists DB_PATH ;
  raise_if (negb present) (HTTPException 503 "Database not available") ;;;
  do response <- reader_lookup env DB_PATH ip_address ;
  ret (Lookup.prune (Lookup.build_result ip_address response)).

Definition lookup_ip (env : Env) (ip_address : string) : M Lookup.dict :=
  try_except (lookup_ip_body env ip_address)
    (fun e => raise (HTTPException 400 (exn_str e))).

(** *** Requests and responses *)

Record Request := {
  req_path : string;
  (** header names as the server hands them over, in lower case *)
  req_headers : list (string * string);
  (** [request.client.host] *)
  client_host : string }.

Definition lower_char (c : ascii) : ascii :=
  let n := PyStr.code c in
  if (65 <=? n) && (n <=? 90) then ascii_of_N (Z.to_N (n + 32)) else c.

Fixpoint lower (s : string) : string :=
  match s with
  | EmptyString => EmptyString
  | String c rest => String (lower_char c) (lower rest)
  end.

(** [request.headers.get(name)] *)
Definition headers_get (req : Request) (name : string) : option string :=
  snd <$> List.find (fun kv => String.eqb (fst kv) (lower name)) (req_headers req).

(** truth value of what [headers.get] returns *)
Definition header_truthy (h : option string) : bool :=
  match h with
  | Some v => negb (PyStr.is_empty v)
  | None => false
  end.

(** [lookup_client_ip] *)
Definition lookup_client_ip (env : Env) (request : Request) : M Lookup.dict :=
  let client_ip :=
    if header_truthy (headers_get request "X-Real-IP")
    then default EmptyString (headers_get request "X-Real-IP")
    else if header_truthy (headers_get request "X-Forwarded-For")
    then default EmptyString (headers_get request "X-Forwarded-For")
    else client_host request in
  lookup_ip env client_ip.

Inductive Response : Type :=
| JSONResponse (status : Z) (body : Lookup.dict)
| ErrorResponse (status : Z) (detail : string)
| FileResponse (p : path) (filename : string) (media_type : string)
| RedirectResponse (status : Z) (url : string)
| FrameworkPage (name : string).

(** [download_database_archive] *)
Definition download_database_archive : M Response :=
  do present <- os_path_exists db_archive ;
  raise_if (negb present) (HTTPException 404 "Database archive not found") ;;;
  ret (FileResponse db_archive "GeoLite2-City.tar.gz" "application/gzip").

(** *** Routes

    A path template is matched segment by segment: a segment [{name}]
    takes any non-empty segment, any other segment takes itself. *)

Definition is_param (seg : string) : bool :=
  PyStr.startswith seg "{" && PyStr.endswith seg "}".

Fixpoint match_segments (template segs : list string) : option (list string) :=
  match template, segs with
  | [], [] => Some []
  | t :: template', s :: segs' =>
      if is_param t then
        if PyStr.is_empty s then None
        else cons s <$> match_segments template' segs'
      else if String.eqb t s then match_segments template' segs'
      else None
  | _, _ => None
  end.

Definition match_template (template url_path : string) : option (list string) :=
  match_segments (PyStr.split "/" template) (PyStr.split "/" url_path).

Inductive Endpoint : Type :=
| EP_framework (name : string)
| EP_lookup_client_ip
| EP_lookup_ip
| EP_download_database_archive.

(** the routes of [app] in the order they are registered: those
    [FastAPI(...)] adds itself, then one per [@app.get] from the top of
    [main.py] to its end *)
Definition routes : list (string * Endpoint) :=
  [ ("/openapi.json", EP_framework "openapi");
    ("/docs", EP_framework "swagger_ui_html");
    ("/docs/oauth2-redirect", EP_framework "swagger_ui_redirect");
    ("/redoc", EP_framework "redoc_html");
    ("/", EP_lookup_client_ip);
    ("/{ip_address}", EP_lookup_ip);
    ("/database", EP_download_database_archive) ].

(** the router walks the routes in order and takes the first that matches *)
Fixpoint first_match (table : list (string * Endpoint)) (url_path : string)
  : option (Endpoint * list string) :=
  match table with
  | [] => None
  | (template, endpoint) :: rest =>
      match match_template template url_path with
      | Some params => Some (endpoint, params)
      | None => first_match rest url_path
      end
  end.

Definition dispatch (url_path : string) : option (Endpoint * list string) :=
  first_match routes url_path.

(** the path with its trailing slash added or removed, tried when no route
    matches *)
Definition toggle_slash (url_path : string) : string :=
  if PyStr.endswith url_path "/"
  then String.substring 0 (String.length url_path - 1) url_path
  else url_path ++ "/".

Definition call_endpoint (env : Env) (endpoint : Endpoint) (params : list string)
    (request : Request) : M Response :=
  match endpoint with
  | EP_framework name => ret (FrameworkPage name)
  | EP_lookup_client_ip =>
      do doc <- lookup_client_ip env request ; ret (JSONResponse 200 doc)
  | EP_lookup_ip =>
      do doc <- lookup_ip env (hd EmptyString params) ; ret (JSONResponse 200 doc)
  | EP_download_database_archive => download_database_archive
  end.

(** an exception that leaves an endpoint becomes an error response *)
Definition exception_response (e : exn) : Response :=
  match e with
  | HTTPException status_code detail => ErrorResponse status_code detail
  | _ => ErrorResponse 500 "Internal Server Error"
  end.

(** an endpoint called by the framework *)
Definition serve (env : Env) (endpoint : Endpoint) (params : list string)
    (request : Request) : M Response :=
  try_except (call_endpoint env endpoint params request)
    (fun e => ret (exception_response e)).

(** a GET request served by [app] *)
Definition handle_get (env : Env) (request : Request) : M Response :=
  match dispatch (req_path request) with
  | Some (endpoint, params) => serve env endpoint params request
  | None =>
      if negb (String.eqb (req_path request) "/")
         && bool_decide (is_Some (dispatch (toggle_slash (req_path request))))
      then ret (RedirectResponse 307 (toggle_slash (req_path request)))
      else ret (ErrorResponse 404 "Not Found")
  end.

End Server.

(** * Vocabulary of the statements *)

Module Shape.
Import Lookup.

(** what the pruning loop does to one entry of the filtered dictionary:
    a nested dictionary loses its [None] fields and goes when nothing is
    left, any other value stays *)
Definition prune_entry (kv : string * value) : option (string * value) :=
  match snd kv with
  | VDict fields =>
      let fields' := List.filter keep_field fields in
      if negb (truthy (VDict fields')) then None else Some (fst kv, VDict fields')
  | _ => Some kv
  end.

(** the loop as one pass over the entries *)
Fixpoint prune_entries (l : dict) : dict :=
  match l with
  | [] => []
  | kv :: rest =>
      match prune_entry kv with
      | Some kv' => kv' :: prune_entries rest
      | None => prune_entries rest
      end
  end.

(** a value is absent somewhere inside [v], at any depth *)
Fixpoint has_none (v : value) : bool :=
  match v with
  | VNone => true
  | VList items => existsb has_none items
  | VDict fields => existsb (fun kv => has_none (snd kv)) fields
  | _ => false
  end.

(** a nested dictionary all of whose fields are absent *)
Definition all_absent (v : value) : bool :=
  match v with
  | VDict fields => forallb (fun kv => is_none (snd kv)) fields
  | _ => false
  end.

(** an empty sequence *)
Definition empty_list (v : value) : bool :=
  match v with
  | VList [] => true
  | _ => false
  end.

(** the document has no key with an absent value (at any depth), no group
    all of whose fields are absent, no empty sequence *)
Definition fully_pruned (doc : dict) : bool :=
  negb (has_none (VDict doc))
  && negb (existsb all_absent (values doc))
  && negb (existsb empty_list (values doc)).

(** what pruning does achieve: no absent value at the top, and every nested
    dictionary is free of absent fields and holds a truthy one *)
Definition group_pruned (v : value) : bool :=
  match v with
  | VDict fields => forallb keep_field fields && any (values fields)
  | _ => true
  end.

Definition top_pruned (doc : dict) : bool :=
  forallb (fun kv => negb (is_none (snd kv)) && group_pruned (snd kv)) doc.

End Shape.

Module Trace.
Import Server.
Local Open Scope list_scope.

(** what the framework answers when the route ['/{ip_address}'] is taken
    with the path parameter [ip] *)
Definition served_lookup (env : Env) (ip : string) (request : Request) : M Response :=
  serve env EP_lookup_ip [ip] request.

(** [Q] holds of what [m] does in world [w] *)
Definition spec {A} (m : M A) (w : World)
    (Q : A + exn -> World -> list Event -> Prop) : Prop :=
  Q (result (m w)) (world (m w)) (events (m w)).

(** the states of the file system a run went through *)
Definition fs_states (evs : list Event) : list FS :=
  flat_map (fun ev => match ev with FsState files => [files] | _ => [] end) evs.

Definition is_sleep (ev : Event) : bool :=
  match ev with Sleep _ => true | _ => false end.

Definition is_reader_open (ev : Event) : bool :=
  match ev with ReaderOpen _ => true | _ => false end.


(** the states seen while the buffers [bufs] are appended, one write each,
    to the file at [p], which holds [data] in the file system [files] *)
Fixpoint write_states (p : path) (files : FS) (data : bytes) (bufs : list bytes)
  : list Event :=
  match bufs with
  | [] => []
  | buf :: rest =>
      FsState (<[p := File (data ++ buf)]> files)
      :: write_states p files (data ++ buf) rest
  end.

(** a log line, which is how an attempt to refresh ends *)
Definition is_log (ev : Event) : bool :=
  match ev with LogInfo _ | LogError _ => true | _ => false end.

Definition count (p : Event -> bool) (evs : list Event) : nat :=
  length (List.filter p evs).

(** the license key as [download_database] reads it *)
Definition license_key (env : Env) : string :=
  default EmptyString (MAXMIND_LICENSE_KEY env).

(** the answer of the provider to the request a refresh makes in [w] *)
Definition provider_answer (env : Env) (w : World) : HttpResult :=
  session_get env (requests w) (download_url (license_key env)).


(** what the canonical database path holds is the file [data] or the
    beginning of it *)
Definition holds_prefix_of (data : bytes) (files : FS) : Prop :=
  exists pre, pre `prefix_of` data /\ files !! DB_PATH = Some (File pre).

End Trace.

(** * Concrete worlds *)

Module Fixtures.
Import Server.

Definition b (s : string) : bytes := list_byte_of_string s.

Definition regular (name content : string) : TarInfo :=
  {| member_name := name; member_kind := REGTYPE (b content) |}.

Definition directory (name : string) : TarInfo :=
  {| member_name := name; member_kind := DIRTYPE |}.

(** an archive laid out like the provider's *)
Definition release_members : list TarInfo :=
  [ directory "GeoLite2-City_20240102";
    regular "GeoLite2-City_20240102/COPYRIGHT.txt" "(c) MaxMind";
    regular "GeoLite2-City_20240102/GeoLite2-City.mmdb" "mmdb-v2";
    regular "GeoLite2-City_20240102/LICENSE.txt" "license" ].

(** an archive with two database members *)
Definition twin_members : list TarInfo :=
  [ regular "README.txt" "two editions";
    regular "a/GeoLite2-City.mmdb" "mmdb-first";
    regular "b/GeoLite2-City.mmdb" "mmdb-second" ].

(** an archive without a database member *)
Definition bare_members : list TarInfo :=
  [ regular "README.txt" "nothing here" ].

(** an archive whose only match is a directory *)
Definition folder_members : list TarInfo :=
  [ directory "GeoLite2-City.mmdb" ].

Definition untar (data : bytes) : option (list TarInfo) :=
  if decide (data = b "release.tar.gz") then Some release_members
  else if decide (data = b "twin.tar.gz") then Some twin_members
  else if decide (data = b "bare.tar.gz") then Some bare_members
  else if decide (data = b "folder.tar.gz") then Some folder_members
  else None.

Definition us : Lookup.Country :=
  {| Lookup.iso_code := Some "US"; Lookup.geoname_id := Some 6252001;
     Lookup.name := Some "United States";
     Lookup.is_in_european_union := Some false |}.

Definition gb : Lookup.Country :=
  {| Lookup.iso_code := Some "GB"; Lookup.geoname_id := Some 2635167;
     Lookup.name := Some "United Kingdom";
     Lookup.is_in_european_union := Some false |}.

Definition no_traits : Lookup.Traits :=
  {| Lookup.is_anonymous_proxy := Some false;
     Lookup.is_satellite_provider := Some false |}.

(** a record without city, postal code and subdivisions *)
Definition record_us : Lookup.CityResponse :=
  {| Lookup.location :=
       Some {| Lookup.latitude := Some 37.75%float;
               Lookup.longitude := Some (-97.8125)%float;
               Lookup.accuracy_radius := Some 1000;
               Lookup.time_zone := Some "America/Chicago" |};
     Lookup.city := Some {| Lookup.city_name := None; Lookup.city_geoname_id := None |};
     Lookup.postal := Some {| Lookup.code := None |};
     Lookup.continent :=
       Some {| Lookup.continent_code := Some "NA";
               Lookup.continent_geoname_id := Some 6255149;
               Lookup.continent_name := Some "North America" |};
     Lookup.country := Some us;
     Lookup.registered_country := Some us;
     Lookup.traits := Some no_traits;
     Lookup.subdivisions := [] |}.

(** a record with a subdivision that has no name *)
Definition record_gb : Lookup.CityResponse :=
  {| Lookup.location :=
       Some {| Lookup.latitude := Some 51.5%float;
               Lookup.longitude := Some (-0.09375)%float;
               Lookup.accuracy_radius := Some 10;
               Lookup.time_zone := Some "Europe/London" |};
     Lookup.city :=
       Some {| Lookup.city_name := Some "London";
               Lookup.city_geoname_id := Some 2643743 |};
     Lookup.postal := Some {| Lookup.code := None |};
     Lookup.continent :=
       Some {| Lookup.continent_code := Some "EU";
               Lookup.continent_geoname_id := Some 6255148;
               Lookup.continent_name := Some "Europe" |};
     Lookup.country := Some gb;
     Lookup.registered_country := Some gb;
     Lookup.traits := Some no_traits;
     Lookup.subdivisions :=
       [ {| Lookup.sub_iso_code := Some "ENG";
            Lookup.sub_geoname_id := Some 6269131;
            Lookup.sub_name := None |} ] |}.

Definition city_of (data : bytes) (ip : string) : Lookup.CityResponse + string :=
  if String.eqb ip "8.8.8.8" then inl record_us
  else if String.eqb ip "81.2.69.142" then inl record_gb
  else inr ("The address " ++ ip ++ " is not in the database.").

(** a configured server whose provider always answers with [answer] *)
Definition env_with (answer : HttpResult) : Env :=
  {| MAXMIND_LICENSE_KEY := Some "license";
     session_get := fun _ _ => answer;
     tar_getmembers := untar;
     reader_city := city_of |}.

Definition env_release : Env := env_with (HttpResponse 200 (b "release.tar.gz")).
Definition env_garbage : Env := env_with (HttpResponse 200 (b "<html>busy</html>")).

(** a server that has never fetched anything *)
Definition fresh : World := {| fs := ∅; requests := 0 |}.

(** a server that serves an earlier release *)
Definition serving : World :=
  {| fs := {[ DB_PATH := File (b "mmdb-v1");
              db_archive := File (b "release-v1.tar.gz") ]};
     requests := 1 |}.

Definition get (url_path : string) : Request :=
  {| req_path := url_path; req_headers := []; client_host := "203.0.113.7" |}.

End Fixtures.

(** * Further vocabulary *)

Module Quads.
Import Server.

(** ['.'.join(map(str, [a, b, c, d]))], the way an IPv4 address is written *)
Definition dotted_quad (a b c d : Z) : string :=
  str_of_Z a
  ++ String "." (str_of_Z b ++ String "." (str_of_Z c ++ String "." (str_of_Z d))).

(** an octet in its decimal writing parses back to itself and holds
    neither a dot nor a slash *)
Definition octet_round_trip (n : Z) : bool :=
  match ipaddress.parse_octet (str_of_Z n) with
  | Some m => (m =? n)
  | None => false
  end
  && negb (PyStr.contains "." (str_of_Z n))
  && negb (PyStr.contains "/" (str_of_Z n)).

(** a digit or a dot *)
Definition quad_char (c : ascii) : bool :=
  PyStr.is_ascii_digit c || Ascii.eqb c ".".

End Quads.

Module Document.
Import Server Lookup.

(** the keys of the dictionary literal of [lookup_ip], in its order *)
Definition document_keys : list string :=
  ["ip"; "location"; "city"; "postal"; "continent"; "country";
   "registered_country"; "traits"; "subdivisions"].

(** one of the two flags of the record is [True] *)
Definition flag_raised (response : CityResponse) : bool :=
  match traits response with
  | Some t =>
      bool_decide (is_anonymous_proxy t = Some true)
      || bool_decide (is_satellite_provider t = Some true)
  | None => false
  end.

(** a number that is absent or zero, a text that is absent or empty *)
Definition no_float (x : option float) : bool :=
  match x with Some f => PrimFloat.eqb f 0%float | None => true end.

Definition no_int (x : option Z) : bool :=
  match x with Some n => n =? 0 | None => true end.

Definition no_text (x : option string) : bool :=
  match x with Some s => PyStr.is_empty s | None => true end.

End Document.

Module Answers.
Import Server.


(** the names under which a proxy passes the address of the client on *)
Definition proxy_header (name : string) : bool :=
  String.eqb name "x-real-ip" || String.eqb name "x-forwarded-for".


End Answers.

Module Installs.
Import Server Trace.





Definition is_http_get (ev : Event) : bool :=
  match ev with HttpGet _ => true | _ => false end.

End Installs.

Module MoreFixtures.
Import Server Fixtures.

(** a server without a license key *)
Definition env_unconfigured : Env :=
  {| MAXMIND_LICENSE_KEY := None;
     session_get := fun _ _ => HttpResponse 200 (b "release.tar.gz");
     tar_getmembers := untar;
     reader_city := city_of |}.

(** a server whose database answers every address with [response] *)
Definition env_reading (response : Lookup.CityResponse) : Env :=
  {| MAXMIND_LICENSE_KEY := Some "license";
     session_get := fun _ _ => HttpResponse 200 (b "release.tar.gz");
     tar_getmembers := untar;
     reader_city := fun _ _ => inl response |}.

(** a record of an anonymous proxy, with nothing else known *)
Definition record_proxy : Lookup.CityResponse :=
  {| Lookup.location := None;
     Lookup.city := None;
     Lookup.postal := None;
     Lookup.continent := None;
     Lookup.country := None;
     Lookup.registered_country := None;
     Lookup.traits :=
       Some {| Lookup.is_anonymous_proxy := Some true;
               Lookup.is_satellite_provider := Some false |};
     Lookup.subdivisions := [] |}.

(** a record of a place on the equator *)
Definition record_equator : Lookup.CityResponse :=
  {| Lookup.location :=
       Some {| Lookup.latitude := Some 0%float;
               Lookup.longitude := Some 36.5%float;
               Lookup.accuracy_radius := Some 50;
               Lookup.time_zone := Some "Africa/Nairobi" |};
     Lookup.city := None;
     Lookup.postal := None;
     Lookup.continent := None;
     Lookup.country := None;
     Lookup.registered_country := None;
     Lookup.traits := None;
     Lookup.subdivisions := [] |}.


(** a request that came through two proxies *)
Definition forwarded : Request :=
  {| req_path := "/";
     req_headers := [("x-forwarded-for", "203.0.113.7, 198.51.100.2")];
     client_host := "198.51.100.2" |}.

End MoreFixtures.

(** * Pruning *)

Module PruneFacts.
Import Lookup Shape.
Local Open Scope list_scope.

Lemma dict_get_app_fresh k v (pre suf : dict) :
  k ∉ keys pre -> dict_get k (pre ++ (k, v) :: suf) = Some v.
Proof.
  induction pre as [|[k' v'] pre IH]; simpl; intros Hk.
  - by rewrite String.eqb_refl.
  - apply not_elem_of_cons in Hk as [Hne Hk].
    destruct (String.eqb_spec k k'); [done | auto].
Qed.

Lemma dict_set_app_fresh k v v1 (pre suf : dict) :
  k ∉ keys pre ->
  dict_set k v1 (pre ++ (k, v) :: suf) = pre ++ (k, v1) :: suf.
Proof.
  induction pre as [|[k' v'] pre IH]; simpl; intros Hk.
  - by rewrite String.eqb_refl.
  - apply not_elem_of_cons in Hk as [Hne Hk].
    destruct (String.eqb_spec k k'); [done | by rewrite IH].
Qed.

Lemma dict_del_app_fresh k v (pre suf : dict) :
  k ∉ keys pre -> dict_del k (pre ++ (k, v) :: suf) = pre ++ suf.
Proof.
  induction pre as [|[k' v'] pre IH]; simpl; intros Hk.
  - by rewrite String.eqb_refl.
  - apply not_elem_of_cons in Hk as [Hne Hk].
    destruct (String.eqb_spec k k'); [done | by rewrite IH].
Qed.

(** one round of the loop on the entry it is about *)
Lemma prune_key_at k v (pre suf : dict) :
  k ∉ keys pre ->
  prune_key (pre ++ (k, v) :: suf) k =
    pre ++ match prune_entry (k, v) with Some kv => kv :: suf | None => suf end.
Proof.
  intros Hk. unfold prune_key, prune_entry.
  rewrite dict_get_app_fresh by done. simpl.
  destruct v; try done.
  rewrite dict_set_app_fresh by done.
  destruct (negb _); [by rewrite dict_del_app_fresh | done].
Qed.

(** with distinct keys the loop treats every entry once, in order *)
Lemma prune_loop (pre suf : dict) :
  NoDup (keys (pre ++ suf)) ->
  fold_left prune_key (keys suf) (pre ++ suf) = pre ++ prune_entries suf.
Proof.
  revert pre. induction suf as [|[k v] suf IH]; intros pre Hnd; [done|].
  assert (k ∉ keys pre) as Hk.
  { unfold keys in *. rewrite map_app in Hnd. simpl in Hnd.
    apply NoDup_app in Hnd as (_ & Hdisj & _).
    intros Hin. apply (Hdisj _ Hin). left. }
  assert (NoDup (keys (pre ++ suf))) as Hnd'.
  { unfold keys in *. rewrite map_app in *. simpl in Hnd.
    apply NoDup_app in Hnd as (H1 & H2 & H3).
    apply NoDup_cons in H3 as [H3 H4].
    apply NoDup_app. split_and!; [done | | done].
    intros x Hx Hx'. apply (H2 x Hx). by right. }
  simpl. rewrite prune_key_at by done.
  assert (fst <$> prune_entry (k, v) = Some k \/ prune_entry (k, v) = None) as Hpe.
  { unfold prune_entry; simpl. destruct v; auto. destruct (negb _); auto. }
  destruct (prune_entry (k, v)) as [[k1 v1]|] eqn:E.
  - destruct Hpe as [[= ->]|]; [|done].
    replace (pre ++ (k, v1) :: suf) with ((pre ++ [(k, v1)]) ++ suf)
      by (by rewrite <- app_assoc).
    rewrite IH.
    + by rewrite <- app_assoc.
    + rewrite <- app_assoc. simpl.
      unfold keys in *. rewrite map_app in *. simpl in *. done.
  - by apply IH.
Qed.

Lemma prune_by_entries (d : dict) :
  NoDup (keys d) ->
  prune d = prune_entries (List.filter keep_top d).
Proof.
  intros Hnd. unfold prune.
  apply (prune_loop [] (List.filter keep_top d)). simpl.
  unfold keys. eapply sublist_NoDup; [exact Hnd|].
  apply (fmap_sublist fst). clear Hnd.
  induction d as [|x d IH]; simpl; [done|].
  destruct (keep_top x); [by apply sublist_skip | by apply sublist_cons].
Qed.

Lemma filter_keep_field_twice (fields : dict) :
  List.filter keep_field (List.filter keep_field fields) = List.filter keep_field fields.
Proof.
  induction fields as [|kv fields IH]; simpl; [done|].
  destruct (keep_field kv) eqn:E; simpl; [by rewrite E, IH | done].
Qed.

Lemma filter_keep_field_all (fields : dict) :
  forallb keep_field (List.filter keep_field fields) = true.
Proof.
  induction fields as [|kv fields IH]; simpl; [done|].
  destruct (keep_field kv) eqn:E; simpl; [by rewrite E | done].
Qed.

Lemma truthy_not_none v : truthy v = true -> is_none v = false.
Proof. by destruct v. Qed.

Lemma any_after_filter (fields : dict) :
  any (values fields) = true ->
  any (values (List.filter keep_field fields)) = true.
Proof.
  unfold any, values.
  induction fields as [|[k v] fields IH]; simpl; [done|].
  unfold keep_field at 1; simpl.
  destruct (truthy v) eqn:E; simpl.
  - intros _. by rewrite (truthy_not_none _ E); simpl; rewrite E.
  - intros H. destruct (is_none v); simpl; [auto | rewrite E; auto].
Qed.

Lemma any_nonempty (fields : dict) :
  any (values fields) = true -> truthy (VDict fields) = true.
Proof. by destruct fields. Qed.

(** an entry the first comprehension keeps survives the loop, and the
    loop has nothing more to do on what it leaves *)
Lemma prune_entry_kept kv :
  keep_top kv = true ->
  exists kv',
    prune_entry kv = Some kv' /\ fst kv' = fst kv /\
    keep_top kv' = true /\ prune_entry kv' = Some kv' /\
    is_none (snd kv') = false /\ group_pruned (snd kv') = true.
Proof.
  destruct kv as [k v]. unfold keep_top, prune_entry. simpl.
  destruct v; simpl; try done; try (by eexists; split_and!).
  intros Hany.
  pose proof (any_after_filter _ Hany) as Hany'.
  pose proof (filter_keep_field_twice fields) as Htwice.
  pose proof (filter_keep_field_all fields) as Hall.
  destruct (List.filter keep_field fields) as [|kv fields'] eqn:EF; [done|].
  eexists; split_and!; try done; simpl in *.
  - by rewrite Htwice.
  - by rewrite Hall, Hany'.
Qed.

Lemma prune_entries_kept (l : dict) :
  forallb keep_top l = true ->
  keys (prune_entries l) = keys l /\
  List.filter keep_top (prune_entries l) = prune_entries l /\
  prune_entries (prune_entries l) = prune_entries l /\
  top_pruned (prune_entries l) = true.
Proof.
  induction l as [|kv l IH]; simpl; [done|].
  intros [Hkv Hl]%andb_prop.
  destruct (IH Hl) as (IH1 & IH2 & IH3 & IH4).
  destruct (prune_entry_kept kv Hkv) as (kv' & E1 & E2 & E3 & E4 & E5 & E6).
  rewrite E1. simpl in *. rewrite E3, E4, E5, E6. simpl.
  split_and!; congruence.
Qed.

Lemma filter_keep_top_all (d : dict) :
  forallb keep_top (List.filter keep_top d) = true.
Proof.
  induction d as [|kv d IH]; simpl; [done|].
  destruct (keep_top kv) eqn:E; simpl; [by rewrite E | done].
Qed.

Lemma keys_filter_NoDup (d : dict) :
  NoDup (keys d) -> NoDup (keys (List.filter keep_top d)).
Proof.
  intros Hnd. unfold keys. eapply sublist_NoDup; [exact Hnd|].
  apply (fmap_sublist fst). clear Hnd.
  induction d as [|x d IH]; simpl; [done|].
  destruct (keep_top x); [by apply sublist_skip | by apply sublist_cons].
Qed.

Lemma prune_idempotent (d : dict) :
  NoDup (keys d) -> prune (prune d) = prune d.
Proof.
  intros Hnd. rewrite (prune_by_entries d Hnd).
  destruct (prune_entries_kept _ (filter_keep_top_all d)) as (E1 & E2 & E3 & _).
  rewrite prune_by_entries.
  - by rewrite E2, E3.
  - rewrite E1. by apply keys_filter_NoDup.
Qed.

Lemma prune_top_pruned (d : dict) :
  NoDup (keys d) -> top_pruned (prune d) = true.
Proof.
  intros Hnd. rewrite (prune_by_entries d Hnd).
  apply (prune_entries_kept _ (filter_keep_top_all d)).
Qed.

(** a value that is neither [None] nor a dictionary is left where it is *)
Lemma prune_keeps_plain (d : dict) k v :
  NoDup (keys d) ->
  dict_get k d = Some v -> is_none v = false -> is_dict v = false ->
  dict_get k (prune d) = Some v.
Proof.
  intros Hnd Hget Hn Hd. rewrite (prune_by_entries d Hnd). clear Hnd.
  induction d as [|[k' v'] d IH]; simpl in *; [done|].
  destruct (String.eqb_spec k k') as [->|Hne].
  - injection Hget as ->.
    assert (keep_top (k', v) = true) as ->
      by (unfold keep_top; simpl; by rewrite Hn, Hd).
    cbn [prune_entries].
    assert (prune_entry (k', v) = Some (k', v)) as ->
      by (unfold prune_entry; simpl; by destruct v).
    simpl. by rewrite String.eqb_refl.
  - destruct (keep_top (k', v')); [|auto]. cbn [prune_entries].
    assert (prune_entry (k', v') = None
            \/ exists v1, prune_entry (k', v') = Some (k', v1)) as [->| [v1 ->]].
    { unfold prune_entry; simpl. destruct v'; eauto. destruct (negb _); eauto. }
    + auto.
    + simpl. destruct (String.eqb_spec k k'); [done | auto].
Qed.

Lemma build_result_keys ip response :
  keys (build_result ip response) =
    ["ip"; "location"; "city"; "postal"; "continent"; "country";
     "registered_country"; "traits"; "subdivisions"].
Proof. reflexivity. Qed.

Lemma build_result_NoDup ip response : NoDup (keys (build_result ip response)).
Proof.
  rewrite build_result_keys.
  apply (bool_decide_unpack _). by vm_compute.
Qed.

End PruneFacts.

(** * Reasoning about runs *)

Module RunFacts.
Import Server Trace.
Local Open Scope list_scope.

Lemma spec_ret {A} (a : A) w Q : Q (inl a) w [] -> spec (ret a) w Q.
Proof. done. Qed.

Lemma spec_raise {A} e w (Q : A + exn -> _) : Q (inr e) w [] -> spec (raise e) w Q.
Proof. done. Qed.

Lemma spec_emit ev w Q : Q (inl tt) w [ev] -> spec (emit ev) w Q.
Proof. done. Qed.

Lemma spec_get_fs w Q : Q (inl (fs w)) w [] -> spec get_fs w Q.
Proof. done. Qed.

Lemma spec_put_fs files w Q :
  Q (inl tt) {| fs := files; requests := requests w |} [FsState files] ->
  spec (put_fs files) w Q.
Proof. done. Qed.

Lemma spec_bind {A B} (m : M A) (f : A -> M B) w Q :
  spec m w (fun r w1 e1 =>
              match r with
              | inl a => spec (f a) w1 (fun r' w2 e2 => Q r' w2 (e1 ++ e2))
              | inr e => Q (inr e) w1 e1
              end) ->
  spec (bind m f) w Q.
Proof. unfold spec, bind. by destruct (result (m w)). Qed.

Lemma bind_returns {A B} (m : M A) (f : A -> M B) w a :
  result (m w) = inl a ->
  bind m f w =
    {| result := result (f a (world (m w)));
       world := world (f a (world (m w)));
       events := events (m w) ++ events (f a (world (m w))) |}.
Proof. intros H. unfold bind. by rewrite H. Qed.

Lemma spec_try_except {A} (m : M A) handler w Q :
  spec m w (fun r w1 e1 =>
              match r with
              | inl a => Q (inl a) w1 e1
              | inr e => spec (handler e) w1 (fun r' w2 e2 => Q r' w2 (e1 ++ e2))
              end) ->
  spec (try_except m handler) w Q.
Proof.
  unfold spec, try_except. destruct (m w) as [[a|e] w1 e1]; simpl; done.
Qed.

Lemma spec_mono {A} (m : M A) w (Q Q' : A + exn -> World -> list Event -> Prop) :
  spec m w Q -> (forall r w' evs, Q r w' evs -> Q' r w' evs) -> spec m w Q'.
Proof. unfold spec. auto. Qed.

Lemma spec_raise_if cond e w Q :
  (cond = true -> Q (inr e) w []) ->
  (cond = false -> Q (inl tt) w []) ->
  spec (raise_if cond e) w Q.
Proof. destruct cond; unfold spec; simpl; auto. Qed.

(** one step of a run, read off the shape of the computation *)
Ltac run_step :=
  lazymatch goal with
  | |- spec (bind _ _) _ _ => apply spec_bind
  | |- spec (try_except _ _) _ _ => apply spec_try_except
  | |- spec (ret _) _ _ => apply spec_ret
  | |- spec (raise _) _ _ => apply spec_raise
  | |- spec (emit _) _ _ => apply spec_emit
  | |- spec (logging_info _) _ _ => apply spec_emit
  | |- spec (logging_error _) _ _ => apply spec_emit
  | |- spec (asyncio_sleep _) _ _ => apply spec_emit
  | |- spec get_fs _ _ => apply spec_get_fs
  | |- spec (put_fs _) _ _ => apply spec_put_fs
  end; cbv beta iota; cbn [fs requests].

Ltac run := repeat run_step.

(** *** Writing *)

Lemma write_states_insert p files node data bufs :
  write_states p (<[p := node]> files) data bufs = write_states p files data bufs.
Proof.
  revert data. induction bufs as [|buf bufs IH]; intros data; simpl; [done|].
  by rewrite insert_insert_eq, IH.
Qed.

Lemma spec_write_all p bufs files n data Q :
  files !! p = Some (File data) ->
  Q (inl tt) {| fs := <[p := File (data ++ concat bufs)]> files; requests := n |}
    (write_states p files data bufs) ->
  spec (write_all p bufs) {| fs := files; requests := n |} Q.
Proof.
  revert files data Q. induction bufs as [|buf bufs IH]; intros files data Q Hp HQ.
  - simpl in *. rewrite app_nil_r, insert_id in HQ by done. done.
  - cbn [write_all]. run_step. unfold write. run. rewrite Hp. run.
    apply (IH _ (data ++ buf)).
    + by rewrite lookup_insert_eq.
    + rewrite insert_insert_eq, write_states_insert, <- app_assoc. exact HQ.
Qed.

Lemma read_chunks_concat fuel size data :
  (0 < size)%nat -> (length data <= fuel)%nat ->
  concat (read_chunks fuel size data) = data.
Proof.
  intros Hsize. revert data.
  induction fuel as [|fuel IH]; intros data Hlen; simpl.
  - destruct data; [done | simpl in Hlen; lia].
  - destruct data as [|b data]; [by destruct size|].
    destruct size as [|size]; [lia|].
    change (take (S size) (b :: data)) with (b :: take size data).
    cbn [concat]. rewrite IH.
    + apply (take_drop (S size) (b :: data)).
    + simpl. rewrite length_drop. simpl in Hlen. lia.
Qed.

Lemma chunks_concat size data : (0 < size)%nat -> concat (chunks size data) = data.
Proof. intros. by apply read_chunks_concat. Qed.

Lemma COPY_BUFSIZE_pos : (0 < COPY_BUFSIZE)%nat.
Proof. unfold COPY_BUFSIZE. lia. Qed.

Lemma TAR_BUFSIZE_pos : (0 < TAR_BUFSIZE)%nat.
Proof. unfold TAR_BUFSIZE. lia. Qed.

(** every state seen while writing holds the old data followed by a
    beginning of what is written, and leaves the other paths alone *)
Lemma write_states_inv p files data bufs s :
  In (FsState s) (write_states p files data bufs) ->
  exists pre, pre `prefix_of` concat bufs /\ s = <[p := File (data ++ pre)]> files.
Proof.
  revert data. induction bufs as [|buf bufs IH]; intros data; simpl; [done|].
  intros [[= <-]|Hin].
  - exists buf. split; [by apply prefix_app_r | done].
  - destruct (IH _ Hin) as (pre & Hpre & ->).
    exists (buf ++ pre). split; [by apply prefix_app | by rewrite <- app_assoc].
Qed.

Lemma write_states_only_fs p files data bufs ev :
  In ev (write_states p files data bufs) -> exists s, ev = FsState s.
Proof.
  revert data. induction bufs as [|buf bufs IH]; intros data; simpl; [done|].
  intros [<-|Hin]; eauto.
Qed.

(** *** The file operations, case by case *)

Lemma spec_os_path_exists p files n Q :
  Q (inl (bool_decide (is_Some (files !! p)))) {| fs := files; requests := n |} [] ->
  spec (os_path_exists p) {| fs := files; requests := n |} Q.
Proof. intros. unfold os_path_exists. by run. Qed.

(** [open(p, 'wb')] and the writes that follow it *)
Lemma spec_write_chunked p bufs files n Q :
  (files !! p = Some Dir ->
   Q (inr (IsADirectoryError p)) {| fs := files; requests := n |} []) ->
  (files !! p <> Some Dir ->
   Q (inl tt) {| fs := <[p := File (concat bufs)]> files; requests := n |}
     (FsState (<[p := File []]> files) :: write_states p files [] bufs)) ->
  spec (open_wb p ;;; write_all p bufs) {| fs := files; requests := n |} Q.
Proof.
  intros Hdir Hok. run_step. unfold open_wb. run.
  destruct (files !! p) as [[data|]|] eqn:E; run;
    try (by apply Hdir);
    (apply (spec_write_all _ _ _ _ []); [by rewrite lookup_insert_eq|];
     rewrite insert_insert_eq, write_states_insert; by apply Hok).
Qed.

Lemma spec_write_file p data files n Q :
  (files !! p = Some Dir ->
   Q (inr (IsADirectoryError p)) {| fs := files; requests := n |} []) ->
  (files !! p <> Some Dir ->
   Q (inl tt) {| fs := <[p := File data]> files; requests := n |}
     [FsState (<[p := File []]> files); FsState (<[p := File data]> files)]) ->
  spec (write_file p data) {| fs := files; requests := n |} Q.
Proof.
  intros Hdir Hok. unfold write_file.
  change (write p data) with (write_all p [data] ;;; ret tt) || idtac.
  run_step. unfold open_wb. run.
  destruct (files !! p) as [[old|]|] eqn:E; run; try (by apply Hdir);
    (unfold write; run; rewrite lookup_insert_eq; run;
     rewrite insert_insert_eq; by apply Hok).
Qed.

Lemma spec_tarfile_open env p files n Q :
  (files !! p = None ->
   Q (inr (FileNotFoundError p)) {| fs := files; requests := n |} []) ->
  (files !! p = Some Dir ->
   Q (inr (IsADirectoryError p)) {| fs := files; requests := n |} []) ->
  (forall data, files !! p = Some (File data) -> tar_getmembers env data = None ->
   Q (inr (ReadError "not a gzip file")) {| fs := files; requests := n |} []) ->
  (forall data members, files !! p = Some (File data) ->
   tar_getmembers env data = Some members ->
   Q (inl members) {| fs := files; requests := n |} []) ->
  spec (tarfile_open env p) {| fs := files; requests := n |} Q.
Proof.
  intros H1 H2 H3 H4. unfold tarfile_open. run.
  destruct (files !! p) as [[data|]|] eqn:E; run; auto.
  destruct (tar_getmembers env data) eqn:E'; run; eauto.
Qed.

Lemma spec_tar_extract member files n Q :
  let target := Tmp (member_name member) in
  (forall content, member_kind member = REGTYPE content ->
   files !! target = Some Dir ->
   Q (inr (IsADirectoryError target)) {| fs := files; requests := n |} []) ->
  (forall content, member_kind member = REGTYPE content ->
   files !! target <> Some Dir ->
   Q (inl tt) {| fs := <[target := File content]> files; requests := n |}
     (FsState (<[target := File []]> files)
      :: write_states target files [] (chunks TAR_BUFSIZE content))) ->
  (member_kind member = DIRTYPE -> files !! target = None ->
   Q (inl tt) {| fs := <[target := Dir]> files; requests := n |}
     [FsState (<[target := Dir]> files)]) ->
  (member_kind member = DIRTYPE -> is_Some (files !! target) ->
   Q (inl tt) {| fs := files; requests := n |} []) ->
  spec (tar_extract member) {| fs := files; requests := n |} Q.
Proof.
  intros target H1 H2 H3 H4. unfold tar_extract. fold target.
  destruct (member_kind member) as [content|] eqn:E.
  - apply spec_write_chunked; [by eauto|].
    intros Hnd. rewrite (chunks_concat _ _ TAR_BUFSIZE_pos). by eauto.
  - run. destruct (files !! target) eqn:E'; run; eauto.
Qed.

Lemma spec_shutil_copy2 src dst files n Q :
  let target := copy2_target files src dst in
  src <> target ->
  (files !! src = None ->
   Q (inr (FileNotFoundError src)) {| fs := files; requests := n |} []) ->
  (files !! src = Some Dir ->
   Q (inr (IsADirectoryError src)) {| fs := files; requests := n |} []) ->
  (forall data, files !! src = Some (File data) -> files !! target = Some Dir ->
   Q (inr (IsADirectoryError target)) {| fs := files; requests := n |} []) ->
  (forall data, files !! src = Some (File data) -> files !! target <> Some Dir ->
   Q (inl tt) {| fs := <[target := File data]> files; requests := n |}
     (FsState (<[target := File []]> files)
      :: write_states target files [] (chunks COPY_BUFSIZE data))) ->
  spec (shutil_copy2 src dst) {| fs := files; requests := n |} Q.
Proof.
  intros target Hne H1 H2 H3 H4. unfold shutil_copy2. run. fold target.
  unfold shutil_copyfile. run.
  rewrite (bool_decide_eq_false_2 _ Hne). cbn [andb raise_if]. run.
  destruct (files !! src) as [[data|]|] eqn:E; [|run; auto..].
  apply spec_write_chunked; [by eauto|].
  intros Hnd. rewrite (chunks_concat _ _ COPY_BUFSIZE_pos). by eauto.
Qed.

Lemma spec_os_remove p files n Q :
  (files !! p = None ->
   Q (inr (FileNotFoundError p)) {| fs := files; requests := n |} []) ->
  (files !! p = Some Dir ->
   Q (inr (IsADirectoryError p)) {| fs := files; requests := n |} []) ->
  (forall data, files !! p = Some (File data) ->
   Q (inl tt) {| fs := delete p files; requests := n |} [FsState (delete p files)]) ->
  spec (os_remove p) {| fs := files; requests := n |} Q.
Proof.
  intros H1 H2 H3. unfold os_remove. run.
  destruct (files !! p) as [[data|]|] eqn:E; run; eauto.
Qed.

Lemma spec_http_get env url files n Q :
  Q (inl (session_get env n url)) {| fs := files; requests := S n |} [HttpGet url] ->
  spec (http_get env url) {| fs := files; requests := n |} Q.
Proof. done. Qed.

(** the place [copy2] writes to lies under the assets directory and is
    not the archive *)
Lemma copy2_target_assets files src :
  exists rel, copy2_target files src DB_PATH = Assets rel /\ Assets rel <> db_archive.
Proof.
  unfold copy2_target.
  destruct (files !! DB_PATH) as [[]|]; eexists; (split; [reflexivity|]); cbn;
    by intros [= H].
Qed.

Lemma copy2_target_file files src dst :
  files !! dst <> Some Dir -> copy2_target files src dst = dst.
Proof. unfold copy2_target. by destruct (files !! dst) as [[]|]. Qed.

(** when the canonical path is a directory the copy goes below it and
    leaves the path itself alone *)
Lemma copy2_target_dir files src :
  files !! DB_PATH = Some Dir ->
  copy2_target files src DB_PATH <> DB_PATH /\
  copy2_target files src DB_PATH <> db_archive.
Proof.
  unfold copy2_target. intros ->. unfold path_join, DB_PATH, db_archive.
  cbn. split; intros [= H].
Qed.

(** a run of the program, one call at a time: every way a call can end
    becomes a goal of its own *)
Ltac io_step :=
  lazymatch goal with
  | |- spec (raise_if _ _) _ _ => apply spec_raise_if; intros ?
  | |- spec (http_get _ _) _ _ => apply spec_http_get
  | |- spec (write_file _ _) _ _ => apply spec_write_file; intros ?
  | |- spec (tarfile_open _ _) _ _ => apply spec_tarfile_open; intros
  | |- spec (tar_extract _) _ _ => apply spec_tar_extract; intros
  | |- spec (os_remove _) _ _ => apply spec_os_remove; intros
  | |- spec (os_path_exists _) _ _ => apply spec_os_path_exists
  | |- spec (shutil_copy2 (Tmp ?x) DB_PATH) {| fs := ?f; requests := _ |} _ =>
      let rel := fresh "rel" in
      let Etarget := fresh "Etarget" in
      let Hrel := fresh "Hrel" in
      destruct (copy2_target_assets f (Tmp x)) as (rel & Etarget & Hrel);
      apply spec_shutil_copy2; [by rewrite Etarget | intros..]
  | |- spec (match ?x with _ => _ end) _ _ => destruct x eqn:?
  | |- _ => run_step
  end; cbv beta iota; cbn [fs requests].

Ltac io_run := repeat io_step.

End RunFacts.

(** * Refreshing *)

Module RefreshFacts.
Import Server Trace RunFacts.
Local Open Scope list_scope.

(** [download_database] is its [try] block, with an exception turned into
    a log line and the answer [False] *)
Lemma spec_download_database env w Q :
  spec (download_database_body env) w
    (fun r w' evs =>
       match r with
       | inl ok => Q (inl ok) w' evs
       | inr e =>
           Q (inl false) w'
             (evs ++ [LogError ("Error updating database: " ++ exn_str e)%string])
       end) ->
  spec (download_database env) w Q.
Proof.
  intros H. unfold download_database. apply spec_try_except.
  eapply spec_mono; [exact H|]. intros [ok|e] w' evs HQ; [done|].
  run. exact HQ.
Qed.


Lemma fs_states_app evs1 evs2 :
  fs_states (evs1 ++ evs2) = fs_states evs1 ++ fs_states evs2.
Proof. apply flat_map_app. Qed.

Lemma fs_states_write p files data bufs P :
  (forall pre, pre `prefix_of` concat bufs -> P (<[p := File (data ++ pre)]> files)) ->
  Forall P (fs_states (write_states p files data bufs)).
Proof.
  intros HP. apply Forall_forall. intros s Hs.
  apply list_elem_of_In, in_flat_map in Hs as (ev & Hev & Hs).
  destruct (write_states_only_fs _ _ _ _ _ Hev) as [s' ->].
  destruct Hs as [<-|[]].
  destruct (write_states_inv _ _ _ _ _ Hev) as (pre & Hpre & ->). auto.
Qed.

Lemma filter_write_states (p : Event -> bool) q files data bufs :
  (forall s, p (FsState s) = false) ->
  List.filter p (write_states q files data bufs) = [].
Proof.
  intros Hp. revert data. induction bufs as [|buf bufs IH]; intros data; simpl; [done|].
  by rewrite Hp, IH.
Qed.

(** the leaves of a run of the [try] block: hypotheses that contradict
    each other, and look-ups in a file system after some writes *)
Ltac leaf :=
  repeat match goal with
    | H : negb _ = true |- _ => apply negb_true_iff in H
    | H : negb _ = false |- _ => apply negb_false_iff in H
    | H : (_ =? _) = true |- _ => apply Z.eqb_eq in H
    | H : (_ =? _) = false |- _ => apply Z.eqb_neq in H
    end;
  try match goal with
      | E : copy2_target _ _ _ = _ |- _ => rewrite E in *
      end;
  try done; try congruence; try (by simplify_map_eq).

Ltac count_events :=
  unfold count;
  rewrite ?List.filter_app; cbn [List.filter is_log is_sleep];
  rewrite ?filter_write_states by done;
  reflexivity.

(** an attempt never raises; when it answers [False] the database path
    holds what it held, and the last thing the attempt did was to log the
    error; it logs once and never sleeps *)
Lemma download_database_contained env files n :
  spec (download_database env) {| fs := files; requests := n |}
    (fun r w' evs =>
       exists ok, r = inl ok /\
         (ok = false ->
          fs w' !! DB_PATH = files !! DB_PATH /\
          exists msg, last evs = Some (LogError msg)) /\
         count is_log evs = 1%nat /\ count is_sleep evs = 0%nat).
Proof.
  apply spec_download_database. unfold download_database_body. io_run.
  all: eexists; split; [reflexivity|].
  all: split; [| split; count_events].
  all: try (intros _; split; [leaf | eexists; apply last_snoc]).
  all: done.
Qed.



End RefreshFacts.

(** * Lookups *)

Module LookupFacts.
Import Server Trace RunFacts.
Local Open Scope list_scope.

(** the three ways [lookup_ip] can go; the world is never changed *)
Lemma lookup_ip_cases env ip files n :
  spec (lookup_ip env ip) {| fs := files; requests := n |}
    (fun r w' evs =>
       w' = {| fs := files; requests := n |} /\
       ((validate_ip ip = false /\ evs = [] /\
         r = inr (HTTPException 400 "400: Invalid IP address"))
        \/ (validate_ip ip = true /\ files !! DB_PATH = None /\ evs = [] /\
            r = inr (HTTPException 400 "503: Database not available"))
        \/ (validate_ip ip = true /\ evs = [ReaderOpen DB_PATH] /\
            match files !! DB_PATH with
            | Some (File data) =>
                match reader_city env data ip with
                | inl response =>
                    r = inl (Lookup.prune (Lookup.build_result ip response))
                | inr msg => r = inr (HTTPException 400 msg)
                end
            | Some Dir =>
                r = inr (HTTPException 400 (exn_str (IsADirectoryError DB_PATH)))
            | None => False
            end))).
Proof.
  unfold lookup_ip, lookup_ip_body, reader_lookup. io_run; cbn [app].
  all: split; [done|].
  all: repeat match goal with
         | H : negb _ = true |- _ => apply negb_true_iff in H
         | H : negb _ = false |- _ => apply negb_false_iff in H
         end.
  - left. done.
  - right; left. split_and!; try done.
    apply eq_None_not_Some. by apply bool_decide_eq_false in H0.
  - right; right. done.
  - right; right. done.
  - right; right. done.
  - by apply bool_decide_eq_true in H0 as [? [=]].
Qed.

(** a lookup that returns a document read it from the database file *)
Lemma lookup_ip_returns env ip w doc :
  result (lookup_ip env ip w) = inl doc ->
  validate_ip ip = true /\
  exists data response,
    fs w !! DB_PATH = Some (File data) /\
    reader_city env data ip = inl response /\
    doc = Lookup.prune (Lookup.build_result ip response).
Proof.
  destruct w as [files n].
  pose proof (lookup_ip_cases env ip files n) as H. unfold spec in H.
  destruct H as [_ [H | [H | H]]]; intros Hdoc.
  - destruct H as (_ & _ & H). congruence.
  - destruct H as (_ & _ & _ & H). congruence.
  - destruct H as (Hv & _ & H). split; [done|]. cbn [fs].
    destruct (files !! DB_PATH) as [[data|]|]; [| congruence | done].
    destruct (reader_city env data ip) as [response|msg] eqn:E; [|congruence].
    exists data, response. split_and!; congruence.
Qed.

(** an address that does not parse ends the lookup at once *)
Lemma lookup_ip_invalid env ip w :
  validate_ip ip = false ->
  result (lookup_ip env ip w) = inr (HTTPException 400 "400: Invalid IP address") /\
  events (lookup_ip env ip w) = [] /\
  world (lookup_ip env ip w) = w.
Proof.
  intros Hbad. destruct w as [files n].
  pose proof (lookup_ip_cases env ip files n) as H. unfold spec in H.
  destruct H as [Hw [H | [H | H]]].
  - by destruct H as (_ & ? & ?).
  - destruct H as (Hv & _). congruence.
  - destruct H as (Hv & _). congruence.
Qed.


End LookupFacts.

(** * The claims about lookups and routes *)

Module LookupClaims.
Import Server Trace RunFacts LookupFacts Fixtures.
Local Open Scope list_scope.

Lemma served_lookup_raises env ip request w status detail :
  result (lookup_ip env ip w) = inr (HTTPException status detail) ->
  result (served_lookup env ip request w) = inl (ErrorResponse status detail).
Proof.
  intros H. unfold served_lookup, serve, call_endpoint, try_except, bind. simpl.
  by rewrite H.
Qed.

(** C8. For every address string that [ipaddress.ip_address] does not
    parse, [lookup_ip] fails with an [HTTPException] of status 400, which
    the framework answers as HTTP 400; the run causes no event at all, so
    the database reader is never opened, and the world is left as it was. *)
Theorem invalid_address_rejected (env : Env) (ip : string) (w : World)
    (request : Request) :
  validate_ip ip = false ->
  let o := lookup_ip env ip w in
  result o = inr (HTTPException 400 "400: Invalid IP address") /\
  existsb is_reader_open (events o) = false /\
  events o = [] /\
  world o = w /\
  result (served_lookup env ip request w)
    = inl (ErrorResponse 400 "400: Invalid IP address").
Proof.
  intros Hbad o. subst o.
  destruct (lookup_ip_invalid env ip w Hbad) as (Hr & He & Hw).
  split_and!; try done.
  - by rewrite He.
  - by apply served_lookup_raises.
Qed.

Lemma invalid_address_rejected_witness :
  validate_ip "not-an-ip" = false /\
  result (lookup_ip env_release "not-an-ip" serving)
    = inr (HTTPException 400 "400: Invalid IP address").
Proof.
  split; [reflexivity|].
  apply (invalid_address_rejected env_release "not-an-ip" serving (get "/not-an-ip")).
  reflexivity.
Defined.

(** the reader is opened as soon as the address is valid and the file is
    there *)
Lemma valid_lookup_opens_reader env ip w :
  validate_ip ip = true -> is_Some (fs w !! DB_PATH) ->
  events (lookup_ip env ip w) = [ReaderOpen DB_PATH].
Proof.
  intros Hv [x Hx]. destruct w as [files n].
  pose proof (lookup_ip_cases env ip files n) as H. unfold spec in H.
  cbn [fs] in Hx.
  destruct H as [_ [H | [H | H]]].
  - destruct H as (? & _). congruence.
  - destruct H as (_ & ? & _). congruence.
  - by destruct H as (_ & ? & _).
Qed.

(** C10. For every lookup that returns a document, the document has the
    key ['ip'] and its value is the address string [lookup_ip] was called
    with: pruning leaves the entry in place. *)
Theorem lookup_reports_queried_ip (env : Env) (ip : string) (w : World)
    (doc : Lookup.dict) :
  result (lookup_ip env ip w) = inl doc ->
  Lookup.dict_get "ip" doc = Some (Lookup.VStr ip).
Proof.
  intros H. apply lookup_ip_returns in H as (_ & data & response & _ & _ & ->).
  apply PruneFacts.prune_keeps_plain; try done.
  apply PruneFacts.build_result_NoDup.
Qed.

Lemma lookup_reports_queried_ip_witness :
  exists doc,
    result (lookup_ip env_release "81.2.69.142" serving) = inl doc /\
    Lookup.dict_get "ip" doc = Some (Lookup.VStr "81.2.69.142").
Proof.
  eexists. split; [by vm_compute|].
  apply (lookup_reports_queried_ip env_release "81.2.69.142" serving).
  by vm_compute.
Defined.

(** C2. For every address that parses, when nothing is stored at the
    database path, [lookup_ip] raises [HTTPException(503)] inside its [try]
    block, the [except Exception] clause catches it and raises
    [HTTPException(400)] in its place: the caller is answered 400, with the
    text of the 503 as detail. *)
Theorem missing_database_answered_400 (env : Env) (ip : string) (w : World)
    (request : Request) :
  validate_ip ip = true ->
  fs w !! DB_PATH = None ->
  result (lookup_ip env ip w)
    = inr (HTTPException 400 "503: Database not available") /\
  result (served_lookup env ip request w)
    = inl (ErrorResponse 400 "503: Database not available").
Proof.
  intros Hv Hdb.
  assert (result (lookup_ip env ip w)
          = inr (HTTPException 400 "503: Database not available")) as Hr.
  { destruct w as [files n]. cbn [fs] in Hdb.
    pose proof (lookup_ip_cases env ip files n) as H. unfold spec in H.
    destruct H as [_ [H | [H | H]]].
    - destruct H as (? & _). congruence.
    - by destruct H as (_ & _ & _ & ?).
    - destruct H as (_ & _ & H). by rewrite Hdb in H. }
  split; [done | by apply served_lookup_raises].
Qed.

Lemma missing_database_answered_400_witness :
  validate_ip "8.8.8.8" = true /\
  fs fresh !! DB_PATH = None /\
  result (served_lookup env_release "8.8.8.8" (get "/8.8.8.8") fresh)
    = inl (ErrorResponse 400 "503: Database not available").
Proof.
  split; [reflexivity|]. split; [reflexivity|].
  apply (missing_database_answered_400 env_release "8.8.8.8" fresh (get "/8.8.8.8"));
    reflexivity.
Defined.

(** the endpoint behind ['/database'], called on its own, does what its
    docstring says *)
Lemma archive_endpoint w :
  result (download_database_archive w) =
    if bool_decide (is_Some (fs w !! db_archive))
    then inl (FileResponse db_archive "GeoLite2-City.tar.gz" "application/gzip")
    else inr (HTTPException 404 "Database archive not found").
Proof.
  destruct w as [files n].
  unfold download_database_archive, os_path_exists, bind, get_fs, ret. simpl.
  by destruct (bool_decide _).
Qed.

(** C1. A GET request for ['/database'] is matched by the route
    ['/{ip_address}'], which is registered before ['/database']: the
    request is handed to [lookup_ip] with the address ['database'] and
    answered 400, whether or not an archive is on disk. *)
Theorem database_path_is_looked_up (env : Env) (w : World)
    (headers : list (string * string)) (host : string) :
  let request :=
    {| req_path := "/database"; req_headers := headers; client_host := host |} in
  dispatch "/database" = Some (EP_lookup_ip, ["database"]) /\
  result (handle_get env request w)
    = inl (ErrorResponse 400 "400: Invalid IP address") /\
  world (handle_get env request w) = w.
Proof.
  intros request.
  assert (dispatch "/database" = Some (EP_lookup_ip, ["database"])) as Hd
    by (by vm_compute).
  split; [done|].
  unfold handle_get. cbn [req_path request]. rewrite Hd.
  assert (validate_ip "database" = false) as Hbad by (by vm_compute).
  destruct (lookup_ip_invalid env "database" w Hbad) as (Hr & _ & Hw).
  split; [by apply (served_lookup_raises env "database" request)|].
  unfold serve, try_except, call_endpoint, bind. cbn [hd].
  rewrite Hr. cbn. exact Hw.
Qed.

(** C6, as stated, fails: the record of 8.8.8.8 has no subdivisions, and
    the document returned for it keeps the key ['subdivisions'] with an
    empty sequence. *)
Lemma empty_subdivisions_are_kept :
  exists doc,
    result (lookup_ip env_release "8.8.8.8" serving) = inl doc /\
    Lookup.dict_get "subdivisions" doc = Some (Lookup.VList []) /\
    Shape.fully_pruned doc = false.
Proof. eexists. split_and!; by vm_compute. Qed.

(** a subdivision entry keeps the fields that are absent *)
Lemma subdivision_entries_are_not_pruned :
  exists doc,
    result (lookup_ip env_release "81.2.69.142" serving) = inl doc /\
    Lookup.dict_get "subdivisions" doc
      = Some (Lookup.VList
                [Lookup.VDict [("iso_code", Lookup.VStr "ENG");
                               ("geoname_id", Lookup.VInt 6269131);
                               ("name", Lookup.VNone)]]).
Proof. eexists. split; by vm_compute. Qed.

(** C6, amended. Pruning a dictionary twice gives what pruning it once
    gives; and in every document a lookup returns no top-level value is
    [None], every nested dictionary is free of [None] fields and holds a
    truthy one, and the key ['subdivisions'] is there with one unpruned
    entry per subdivision of the record, none when the record has none. *)
Theorem pruning_is_idempotent_one_level_deep :
  (forall d : Lookup.dict,
      NoDup (Lookup.keys d) -> Lookup.prune (Lookup.prune d) = Lookup.prune d) /\
  (forall (env : Env) (ip : string) (w : World) (doc : Lookup.dict),
      result (lookup_ip env ip w) = inl doc ->
      Shape.top_pruned doc = true /\
      exists data response,
        fs w !! DB_PATH = Some (File data) /\
        reader_city env data ip = inl response /\
        Lookup.dict_get "subdivisions" doc
          = Some (Lookup.VList
                    (map (fun s => Lookup.VDict (Lookup.subdivision_fields s))
                         (Lookup.subdivisions response)))).
Proof.
  split; [exact PruneFacts.prune_idempotent|].
  intros env ip w doc H.
  apply lookup_ip_returns in H as (_ & data & response & Hdb & Hcity & ->).
  split.
  - apply PruneFacts.prune_top_pruned, PruneFacts.build_result_NoDup.
  - exists data, response. split_and!; try done.
    apply PruneFacts.prune_keeps_plain; try done.
    apply PruneFacts.build_result_NoDup.
Qed.

Lemma pruning_is_idempotent_one_level_deep_witness :
  let d := Lookup.build_result "8.8.8.8" record_us in
  NoDup (Lookup.keys d) /\
  Lookup.prune (Lookup.prune d) = Lookup.prune d /\
  exists doc,
    result (lookup_ip env_release "8.8.8.8" serving) = inl doc /\
    Shape.top_pruned doc = true.
Proof.
  pose proof pruning_is_idempotent_one_level_deep as [Hidem Hshape].
  intros d.
  assert (NoDup (Lookup.keys d)) as Hnd by apply PruneFacts.build_result_NoDup.
  split; [exact Hnd|]. split; [exact (Hidem d Hnd)|].
  eexists. split; [by vm_compute|].
  refine (proj1 (Hshape env_release "8.8.8.8" serving _ _)). by vm_compute.
Defined.

End LookupClaims.

(** * The claims about refreshing *)

Module RefreshClaims.
Import Server Trace RunFacts RefreshFacts LookupFacts Fixtures.
Local Open Scope list_scope.

(** where nothing is in the way, [copy2] writes to the canonical path *)
Lemma copy2_target_canonical (files : FS) (src : path) (rel : string) :
  files !! DB_PATH <> Some Dir ->
  copy2_target files src DB_PATH = Assets rel ->
  Assets rel = DB_PATH.
Proof. intros Hdb <-. by apply copy2_target_file. Qed.


(** the canonical path is no directory, so that is where [copy2] writes *)
Ltac canonical_target :=
  match goal with
  | E : copy2_target ?f ?src DB_PATH = Assets ?rel |- _ =>
      let H := fresh "Hcanon" in
      assert (Assets rel = DB_PATH) as H
        by (apply (copy2_target_canonical f src); [by simplify_map_eq | exact E]);
      injection H as ->; clear E
  end.

Ltac leaf' :=
  leaf;
  try (repeat match goal with H : is_Some _ |- _ => destruct H end;
       simplify_map_eq; congruence).









(** on the path where nothing fails the staged file is removed *)
Lemma staged_file_removed_on_success (env : Env) (files : FS) (n : nat) :
  spec (download_database env) {| fs := files; requests := n |}
    (fun r w' evs =>
       match r with
       | inl true =>
           exists body members m,
             provider_answer env {| fs := files; requests := n |}
               = HttpResponse 200 body /\
             tar_getmembers env body = Some members /\
             first_mmdb members = Some m /\
             fs w' !! Tmp (member_name m) = None
       | _ => True
       end).
Proof.
  unfold provider_answer, license_key. cbn [requests].
  apply spec_download_database. unfold download_database_body. io_run.
  all: try done.
  all: leaf; simplify_map_eq; eexists _, _, _; split_and!; try done.
  all: by simplify_map_eq.
Qed.

(** the states seen from the moment [copy2] opens the canonical path:
    the path is truncated first, and holds a beginning of the new file from
    then on *)
Lemma states_during_copy (files : FS) (data : bytes) (tmp : path) (msg : string) :
  tmp <> DB_PATH ->
  let evs :=
    (FsState (<[DB_PATH := File []]> files)
     :: write_states DB_PATH files [] (chunks COPY_BUFSIZE data))
    ++ [FsState (delete tmp (<[DB_PATH := File data]> files)); LogInfo msg] in
  (exists s rest, fs_states evs = s :: rest /\ s !! DB_PATH = Some (File [])) /\
  Forall (holds_prefix_of data) (fs_states evs).
Proof.
  intros Htmp evs. subst evs. rewrite fs_states_app.
  cbn [fs_states flat_map app]. split.
  - eexists _, _. split; [reflexivity|]. by rewrite lookup_insert_eq.
  - apply Forall_cons. split.
    { exists []. split; [apply prefix_nil | by rewrite lookup_insert_eq]. }
    apply Forall_app. split.
    + apply fs_states_write. intros pre Hpre.
      rewrite (chunks_concat _ _ COPY_BUFSIZE_pos) in Hpre.
      exists pre. split; [done | by rewrite lookup_insert_eq].
    + apply Forall_singleton. exists data. split; [done|].
      by rewrite lookup_delete_ne, lookup_insert_eq.
Qed.

(** the states seen while a member is extracted under ['/tmp'] leave
    every path under the assets directory alone *)
Lemma states_during_extract (files : FS) (name : string) (content : bytes)
    (p : path) :
  (forall rel, p <> Tmp rel) ->
  Forall (fun s => s !! p = files !! p)
    (fs_states (FsState (<[Tmp name := File []]> files)
                :: write_states (Tmp name) files [] (chunks TAR_BUFSIZE content))).
Proof.
  intros Hp. cbn [fs_states flat_map app]. apply Forall_cons. split.
  - rewrite lookup_insert_ne; [done | by apply not_eq_sym].
  - apply fs_states_write. intros pre _.
    rewrite lookup_insert_ne; [done | by apply not_eq_sym].
Qed.

(** C3, amended. The staged database is installed by [shutil.copy2]
    straight onto the canonical path: there is no temporary file beside it
    and no rename.  In an attempt that succeeds, the states of the file
    system fall into two runs: in the first the canonical path holds what it
    held before; the second opens with the path truncated to nothing, and
    in all of it the path holds a beginning of the new file, the whole of it
    at the end. *)
Theorem database_is_overwritten_in_place (env : Env) (files : FS) (n : nat) :
  let w := {| fs := files; requests := n |} in
  let o := download_database env w in
  files !! DB_PATH <> Some Dir ->
  result o = inl true ->
  exists data before during,
    fs (world o) !! DB_PATH = Some (File data) /\
    fs_states (events o) = before ++ during /\
    Forall (fun s => s !! DB_PATH = files !! DB_PATH) before /\
    (exists s rest, during = s :: rest /\ s !! DB_PATH = Some (File [])) /\
    Forall (holds_prefix_of data) during.
Proof.
  intros w o Hdb. subst o w.
  enough (spec (download_database env) {| fs := files; requests := n |}
            (fun r w' evs =>
               match r with
               | inl true =>
                   exists data evs1 evs2,
                     fs w' !! DB_PATH = Some (File data) /\
                     evs = evs1 ++ evs2 /\
                     Forall (fun s => s !! DB_PATH = files !! DB_PATH)
                       (fs_states evs1) /\
                     (exists s rest,
                         fs_states evs2 = s :: rest /\
                         s !! DB_PATH = Some (File [])) /\
                     Forall (holds_prefix_of data) (fs_states evs2)
               | _ => True
               end)) as Hrun.
  { unfold spec in Hrun. intros Hok. rewrite Hok in Hrun.
    destruct Hrun as (data & evs1 & evs2 & H1 & H2 & H3 & H4 & H5).
    exists data, (fs_states evs1), (fs_states evs2).
    rewrite H2, fs_states_app. done. }
  apply spec_download_database. unfold download_database_body. io_run.
  all: try done.
  all: leaf'.
  all: canonical_target.
  all: fold DB_PATH in *.
  all: match goal with
       | |- context [ (?ex ++ (FsState ?y
                                 :: write_states ?q ?f ?d (chunks _ ?new))
                          ++ [FsState ?z]) ++ [LogInfo ?msg] ++ [] ] =>
           match goal with
           | |- context [ [HttpGet ?u] ++ [] ++ [FsState ?sa; FsState ?sb] ++ _ ] =>
               exists new, ([HttpGet u; FsState sa; FsState sb] ++ ex),
                 ((FsState y :: write_states q f d (chunks COPY_BUFSIZE new))
                  ++ [FsState z; LogInfo msg])
           end
       end.
  all: split; [by simplify_map_eq|].
  all: split;
    [repeat (progress (cbn [app]; rewrite <- ?app_assoc)); reflexivity|].
  all: split;
    [| match goal with
       | |- context [delete ?tmp (<[DB_PATH := File ?d]> ?f)] =>
           exact (states_during_copy f d tmp _ ltac:(done))
       end].
  all: rewrite fs_states_app; cbn [fs_states flat_map app]; fold fs_states.
  all: repeat (apply Forall_cons; split; [by simplify_map_eq|]).
  - apply (fs_states_write _ _ _ _ (fun s => s !! DB_PATH = files !! DB_PATH)).
    intros pre _. by simplify_map_eq.
  - done.
Qed.

Lemma database_is_overwritten_in_place_witness :
  fs serving !! DB_PATH = Some (File (b "mmdb-v1")) /\
  exists data before during,
    fs (world (download_database env_release serving)) !! DB_PATH
      = Some (File data) /\
    fs_states (events (download_database env_release serving)) = before ++ during /\
    Forall (fun s => s !! DB_PATH = fs serving !! DB_PATH) before /\
    (exists s rest, during = s :: rest /\ s !! DB_PATH = Some (File [])) /\
    Forall (holds_prefix_of data) during.
Proof.
  split; [reflexivity|].
  apply (database_is_overwritten_in_place env_release (fs serving) 1).
  - by vm_compute.
  - by vm_compute.
Defined.

(** C3, as stated, fails: a server that serves release 1 fetches release
    2; between the two there is a state of the file system in which the
    canonical path holds an empty file, which is neither release. *)
Lemma database_is_truncated_during_install :
  fs serving !! DB_PATH = Some (File (b "mmdb-v1")) /\
  result (download_database env_release serving) = inl true /\
  fs (world (download_database env_release serving)) !! DB_PATH
    = Some (File (b "mmdb-v2")) /\
  existsb (fun s => bool_decide (s !! DB_PATH = Some (File [])))
    (fs_states (events (download_database env_release serving))) = true /\
  forallb (fun s => bool_decide (s !! DB_PATH = Some (File (b "mmdb-v1")))
                    || bool_decide (s !! DB_PATH = Some (File (b "mmdb-v2"))))
    (fs_states (events (download_database env_release serving))) = false.
Proof. split_and!; by vm_compute. Qed.




End RefreshClaims.

(** * Addresses *)

Module AddressFacts.
Import Server Quads.
Local Open Scope list_scope.

Lemma contains_append c (s t : string) :
  PyStr.contains c (s ++ t)%string = PyStr.contains c s || PyStr.contains c t.
Proof.
  unfold PyStr.contains, PyStr.chars.
  induction s as [|a s IH]; simpl; [done|].
  by rewrite IH, orb_assoc.
Qed.

Lemma contains_cons c a (s : string) :
  PyStr.contains c (String a s) = Ascii.eqb c a || PyStr.contains c s.
Proof. done. Qed.

Lemma split_without_separator sep (s : string) :
  PyStr.contains sep s = false -> PyStr.split sep s = [s].
Proof.
  unfold PyStr.contains, PyStr.chars.
  induction s as [|a s IH]; simpl; [done|].
  intros [Ha Hs]%orb_false_elim.
  rewrite Ascii.eqb_sym, Ha, (IH Hs). done.
Qed.

Lemma split_at_separator sep (s t : string) :
  PyStr.contains sep s = false ->
  PyStr.split sep (s ++ String sep t)%string = s :: PyStr.split sep t.
Proof.
  unfold PyStr.contains, PyStr.chars.
  induction s as [|a s IH]; simpl.
  - intros _. by rewrite Ascii.eqb_refl.
  - intros [Ha Hs]%orb_false_elim.
    rewrite Ascii.eqb_sym, Ha, (IH Hs). done.
Qed.

(** a character of a text is in one of its fields, unless it is the
    separator *)
Lemma split_holds_char c sep (s : string) :
  PyStr.contains c s = true -> Ascii.eqb c sep = false ->
  existsb (PyStr.contains c) (PyStr.split sep s) = true.
Proof.
  intros Hc Hsep. induction s as [|a s IH]; [done|].
  rewrite contains_cons in Hc. cbn [PyStr.split].
  destruct (Ascii.eqb_spec a sep) as [->|Hne].
  - rewrite Hsep in Hc. cbn [existsb orb] in *. auto.
  - destruct (PyStr.split sep s) as [|field fields].
    + cbn [existsb]. rewrite contains_cons.
      destruct (Ascii.eqb c a); [done|]. cbn in *. auto.
    + cbn [existsb] in *. rewrite contains_cons.
      destruct (Ascii.eqb c a); [done|]. cbn [orb] in *. auto.
Qed.

Lemma partition_before c sep (s : string) :
  PyStr.contains c s = false ->
  PyStr.contains c (PyStr.partition sep s).1.1 = false.
Proof.
  induction s as [|a s IH]; [done|].
  rewrite contains_cons. intros [Ha Hs]%orb_false_elim.
  cbn [PyStr.partition]. destruct (Ascii.eqb a sep); [done|].
  destruct (PyStr.partition sep s) as [[before found] after].
  cbn [fst] in *. rewrite contains_cons, Ha. auto.
Qed.

Lemma octets_round_trip :
  forallb octet_round_trip (map Z.of_nat (seq 0 256)) = true.
Proof. by vm_compute. Qed.

Lemma octet_round_trips n :
  0 <= n <= 255 -> octet_round_trip n = true.
Proof.
  intros Hn. pose proof octets_round_trip as H.
  rewrite forallb_forall in H. apply H.
  apply in_map_iff. exists (Z.to_nat n). split; [lia|].
  apply in_seq. lia.
Qed.

Lemma octet_facts n :
  0 <= n <= 255 ->
  ipaddress.parse_octet (str_of_Z n) = Some n /\
  PyStr.contains "." (str_of_Z n) = false /\
  PyStr.contains "/" (str_of_Z n) = false /\
  PyStr.is_empty (str_of_Z n) = false.
Proof.
  intros Hn. pose proof (octet_round_trips n Hn) as H.
  unfold octet_round_trip in H.
  apply andb_prop in H as [[H1 H2]%andb_prop H3].
  apply negb_true_iff in H2, H3.
  destruct (ipaddress.parse_octet (str_of_Z n)) as [m|] eqn:E; [|done].
  apply Z.eqb_eq in H1 as ->. split_and!; try done.
  unfold ipaddress.parse_octet in E. by destruct (PyStr.is_empty _).
Qed.

(** X1. [validate_ip] accepts every IPv4 address in its usual writing:
    four octets between 0 and 255, each in decimal without leading zeros,
    joined by dots.  The parser reads it as the integer whose four bytes,
    most significant first, are the octets. *)
Theorem dotted_quad_is_valid (a b c d : Z) :
  0 <= a <= 255 -> 0 <= b <= 255 -> 0 <= c <= 255 -> 0 <= d <= 255 ->
  ipaddress.ip_address (dotted_quad a b c d)
    = Some (ipaddress.IPv4Address (((a * 256 + b) * 256 + c) * 256 + d)) /\
  validate_ip (dotted_quad a b c d) = true.
Proof.
  intros Ha Hb Hc Hd.
  destruct (octet_facts a Ha) as (Pa & Da & Sa & Ea).
  destruct (octet_facts b Hb) as (Pb & Db & Sb & _).
  destruct (octet_facts c Hc) as (Pc & Dc & Sc & _).
  destruct (octet_facts d Hd) as (Pd & Dd & Sd & _).
  assert (ipaddress.ip_address (dotted_quad a b c d)
          = Some (ipaddress.IPv4Address (((a * 256 + b) * 256 + c) * 256 + d))) as H.
  { unfold ipaddress.ip_address, ipaddress.parse_v4, dotted_quad.
    repeat (rewrite contains_append || rewrite contains_cons).
    rewrite Sa, Sb, Sc, Sd.
    cbn [orb Ascii.eqb Bool.eqb andb].
    unfold ipaddress.v4_int_from_string.
    assert (forall t, PyStr.is_empty (str_of_Z a ++ t)%string = false) as ->.
    { intros t. by destruct (str_of_Z a). }
    rewrite !split_at_separator, split_without_separator by done.
    cbn [length Nat.eqb negb ipaddress.from_octets].
    rewrite Pa, Pb, Pc, Pd. do 2 f_equal. lia. }
  split; [exact H|]. unfold validate_ip. by rewrite H.
Qed.

Lemma dotted_quad_is_valid_witness :
  dotted_quad 192 0 2 1 = "192.0.2.1"%string /\
  validate_ip (dotted_quad 192 0 2 1) = true.
Proof.
  split; [reflexivity|].
  apply (dotted_quad_is_valid 192 0 2 1); lia.
Defined.

Lemma parse_octet_bad_char c (o : string) :
  PyStr.contains c o = true -> PyStr.is_ascii_digit c = false ->
  ipaddress.parse_octet o = None.
Proof.
  intros Hc Hdigit. unfold ipaddress.parse_octet.
  destruct (PyStr.is_empty o); [done|].
  assert (forallb PyStr.is_ascii_digit (PyStr.chars o) = false) as ->; [|done].
  unfold PyStr.contains in Hc.
  apply existsb_exists in Hc as (x & Hx & ->%Ascii.eqb_eq).
  apply not_true_iff_false. rewrite forallb_forall. intros H.
  specialize (H _ Hx). congruence.
Qed.

Lemma from_octets_bad_char c octets acc :
  existsb (PyStr.contains c) octets = true -> PyStr.is_ascii_digit c = false ->
  ipaddress.from_octets octets acc = None.
Proof.
  intros Hc Hdigit. revert acc.
  induction octets as [|o octets IH]; intros acc; [done|].
  cbn [existsb ipaddress.from_octets] in *.
  destruct (PyStr.contains c o) eqn:E.
  - by rewrite (parse_octet_bad_char c o E Hdigit).
  - destruct (ipaddress.parse_octet o); [|done]. by apply IH.
Qed.

Lemma parse_v4_bad_char c (s : string) :
  PyStr.contains c s = true -> PyStr.is_ascii_digit c = false ->
  Ascii.eqb c "." = false ->
  ipaddress.parse_v4 s = None.
Proof.
  intros Hc Hdigit Hdot. unfold ipaddress.parse_v4, ipaddress.v4_int_from_string.
  destruct (PyStr.contains "/" s); [done|].
  destruct (PyStr.is_empty s); [done|].
  destruct (negb _); [done|].
  apply (from_octets_bad_char c); [|done]. by apply split_holds_char.
Qed.

Lemma parse_v6_without_colon (s : string) :
  PyStr.contains ":" s = false -> ipaddress.parse_v6 s = None.
Proof.
  intros Hc. unfold ipaddress.parse_v6, ipaddress.split_scope_id.
  destruct (PyStr.contains "/" s); [done|].
  pose proof (partition_before ":" "%" s Hc) as Hb.
  destruct (PyStr.partition "%" s) as [[addr sep] scope_id]. cbn in Hb.
  assert (ipaddress.v6_int_from_string addr = None) as Hv6.
  { unfold ipaddress.v6_int_from_string.
    destruct (PyStr.is_empty addr); [done|].
    by rewrite (split_without_separator _ _ Hb). }
  destruct (negb sep); [by rewrite Hv6|].
  destruct (_ || _); [done|]. by rewrite Hv6.
Qed.

(** a text without a colon that holds a character other than a digit and
    a dot is no address *)
Lemma validate_ip_bad_char c (s : string) :
  PyStr.contains ":" s = false ->
  PyStr.contains c s = true -> PyStr.is_ascii_digit c = false ->
  Ascii.eqb c "." = false ->
  validate_ip s = false.
Proof.
  intros Hcolon Hc Hdigit Hdot. unfold validate_ip, ipaddress.ip_address.
  by rewrite (parse_v4_bad_char c s), parse_v6_without_colon.
Qed.

(** X2. What [validate_ip] accepts is never empty and never holds a
    slash, so a network in CIDR writing is turned down; and an accepted
    text without a colon consists of digits and dots only. *)
Theorem accepted_address_is_plain (s : string) :
  validate_ip s = true ->
  PyStr.is_empty s = false /\
  PyStr.contains "/" s = false /\
  (PyStr.contains ":" s = false -> forallb quad_char (PyStr.chars s) = true).
Proof.
  intros Hvalid. split_and!.
  - by destruct s.
  - unfold validate_ip, ipaddress.ip_address, ipaddress.parse_v4,
      ipaddress.parse_v6 in Hvalid.
    by destruct (PyStr.contains "/" s).
  - intros Hcolon. apply not_false_iff_true. intros Hbad.
    assert (exists c, In c (PyStr.chars s) /\ quad_char c = false) as (c & Hin & Hc).
    { induction (PyStr.chars s) as [|a l IH]; [done|].
      cbn [forallb] in Hbad. apply andb_false_iff in Hbad as [Ha|Hl].
      - exists a. split; [by left | done].
      - destruct (IH Hl) as (c & Hin & Hc). exists c. split; [by right | done]. }
    apply orb_false_elim in Hc as [Hdigit Hdot].
    assert (PyStr.contains c s = true) as Hcontains.
    { unfold PyStr.contains. apply existsb_exists. exists c.
      split; [done | apply Ascii.eqb_refl]. }
    pose proof (validate_ip_bad_char c s Hcolon Hcontains Hdigit Hdot).
    congruence.
Qed.

Lemma accepted_address_is_plain_witness :
  validate_ip "81.2.69.142" = true /\
  PyStr.contains "/" "81.2.69.142" = false /\
  forallb quad_char (PyStr.chars "81.2.69.142") = true.
Proof.
  split; [reflexivity|].
  destruct (accepted_address_is_plain "81.2.69.142" eq_refl) as (_ & H1 & H2).
  split; [exact H1 | exact (H2 eq_refl)].
Defined.

End AddressFacts.

(** * The document *)

Module DocumentFacts.
Import Server Lookup Shape PruneFacts Document MoreFixtures.
Local Open Scope list_scope.

Lemma dict_get_missing k (d : dict) : k ∉ keys d -> dict_get k d = None.
Proof.
  induction d as [|[k' v] d IH]; simpl; [done|].
  intros [Hne Hk]%not_elem_of_cons.
  destruct (String.eqb_spec k k'); [done | auto].
Qed.

Lemma prune_entry_key kv kv' : prune_entry kv = Some kv' -> fst kv' = fst kv.
Proof.
  destruct kv as [k v]. unfold prune_entry. simpl.
  destruct v; try (by intros [= <-]).
  destruct (negb _); [done | by intros [= <-]].
Qed.

(** pruning keeps the keys it keeps in their order *)
Lemma pruned_keys_sublist (d : dict) :
  keys (prune_entries (List.filter keep_top d)) `sublist_of` keys d.
Proof.
  induction d as [|kv d IH]; simpl; [done|].
  destruct (keep_top kv); [|by apply sublist_cons].
  cbn [prune_entries].
  destruct (prune_entry kv) as [kv'|] eqn:E; [|by apply sublist_cons].
  simpl. rewrite (prune_entry_key _ _ E). by apply sublist_skip.
Qed.

(** what pruning does to a nested dictionary: it goes when no field is
    truthy, and loses its [None] fields otherwise *)
Lemma prune_group (d : dict) k fields :
  NoDup (keys d) ->
  dict_get k d = Some (VDict fields) ->
  dict_get k (prune d)
    = if any (values fields)
      then Some (VDict (List.filter keep_field fields))
      else None.
Proof.
  intros Hnd Hget. rewrite (prune_by_entries d Hnd).
  induction d as [|[k' v'] d IH]; simpl in *; [done|].
  apply NoDup_cons in Hnd as [Hk' Hnd].
  destruct (String.eqb_spec k k') as [->|Hne].
  - injection Hget as ->.
    change (keep_top (k', VDict fields)) with (any (values fields)).
    destruct (any (values fields)) eqn:Hany.
    + cbn [prune_entries]. unfold prune_entry. cbn [snd fst].
      pose proof (any_nonempty _ (any_after_filter _ Hany)) as Ht.
      rewrite Ht. simpl. by rewrite String.eqb_refl.
    + apply dict_get_missing. intros Hin. apply Hk'.
      eapply sublist_subseteq; [apply pruned_keys_sublist | exact Hin].
  - destruct (keep_top (k', v')); [|auto]. cbn [prune_entries].
    destruct (prune_entry (k', v')) as [[k1 v1]|] eqn:E; [|auto].
    apply prune_entry_key in E. simpl in E. subst k1.
    simpl. destruct (String.eqb_spec k k'); [done | auto].
Qed.

Lemma lookup_ip_succeeds env ip w data response :
  validate_ip ip = true ->
  fs w !! DB_PATH = Some (File data) ->
  reader_city env data ip = inl response ->
  result (lookup_ip env ip w) = inl (prune (build_result ip response)).
Proof.
  intros Hv Hdb Hcity. destruct w as [files n]. cbn [fs] in Hdb.
  pose proof (LookupFacts.lookup_ip_cases env ip files n) as H.
  unfold Trace.spec in H. rewrite Hdb, Hcity in H.
  destruct H as [_ [H | [H | H]]].
  - destruct H as (? & _). congruence.
  - destruct H as (_ & ? & _). congruence.
  - by destruct H as (_ & _ & ?).
Qed.

(** X3. The keys of a document [lookup_ip] returns are distinct, come in
    the order of the dictionary literal (ip, location, city, postal,
    continent, country, registered_country, traits, subdivisions) with
    some of them left out, and begin with ['ip']. *)
Theorem document_keys_keep_their_order (env : Env) (ip : string) (w : World)
    (doc : dict) :
  result (lookup_ip env ip w) = inl doc ->
  keys doc `sublist_of` document_keys /\
  NoDup (keys doc) /\
  head (keys doc) = Some "ip"%string.
Proof.
  intros H.
  apply LookupFacts.lookup_ip_returns in H as (_ & data & response & _ & _ & ->).
  pose proof (build_result_NoDup ip response) as Hnd.
  rewrite (prune_by_entries _ Hnd).
  pose proof (pruned_keys_sublist (build_result ip response)) as Hsub.
  rewrite build_result_keys in Hsub, Hnd.
  split_and!.
  - exact Hsub.
  - by eapply sublist_NoDup.
  - reflexivity.
Qed.

Lemma document_keys_keep_their_order_witness :
  exists doc,
    result (lookup_ip Fixtures.env_release "8.8.8.8" Fixtures.serving) = inl doc /\
    NoDup (keys doc) /\
    head (keys doc) = Some "ip"%string.
Proof.
  eexists. split; [reflexivity|].
  exact (proj2 (document_keys_keep_their_order Fixtures.env_release "8.8.8.8"
                  Fixtures.serving _ eq_refl)).
Defined.

Lemma traits_fields_truthy response :
  any (values
         [("is_anonymous_proxy",
           of_group (traits response) is_anonymous_proxy bool_or_none);
          ("is_satellite_provider",
           of_group (traits response) is_satellite_provider bool_or_none)])
  = flag_raised response.
Proof.
  unfold flag_raised. destruct (traits response) as [[[[|]|] [[|]|]]|]; done.
Qed.

(** X4. The document of a lookup has the key ['traits'] exactly when the
    record marks the address as an anonymous proxy or as a satellite
    provider: two flags that are both [False] make a group without a
    truthy value, which the pruning drops. *)
Theorem traits_appear_only_with_a_raised_flag (env : Env) (ip : string)
    (w : World) (data : bytes) (response : CityResponse) :
  validate_ip ip = true ->
  fs w !! DB_PATH = Some (File data) ->
  reader_city env data ip = inl response ->
  exists doc,
    result (lookup_ip env ip w) = inl doc /\
    (is_Some (dict_get "traits" doc) <-> flag_raised response = true).
Proof.
  intros Hv Hdb Hcity. eexists. split; [by eapply lookup_ip_succeeds|].
  erewrite prune_group;
    [| apply build_result_NoDup | reflexivity].
  rewrite traits_fields_truthy.
  destruct (flag_raised response); split; try done.
Qed.

Lemma traits_appear_only_with_a_raised_flag_witness :
  flag_raised record_proxy = true /\
  flag_raised Fixtures.record_us = false /\
  exists doc,
    result (lookup_ip (env_reading record_proxy) "192.0.2.1" Fixtures.serving)
      = inl doc /\
    (is_Some (dict_get "traits" doc) <-> flag_raised record_proxy = true).
Proof.
  split; [reflexivity|]. split; [reflexivity|].
  apply (traits_appear_only_with_a_raised_flag (env_reading record_proxy)
           "192.0.2.1" Fixtures.serving (Fixtures.b "mmdb-v1") record_proxy);
    reflexivity.
Defined.

Lemma float_or_none_absent x : no_float x = true -> float_or_none x = VNone.
Proof.
  destruct x as [f|]; [|done]. unfold no_float, float_or_none, truthy.
  by intros ->.
Qed.

Lemma int_or_none_absent x : no_int x = true -> int_or_none x = VNone.
Proof.
  destruct x as [n|]; [|done]. unfold no_int, int_or_none, truthy.
  by intros ->.
Qed.

Lemma str_or_none_absent x : no_text x = true -> str_or_none x = VNone.
Proof.
  destruct x as [s|]; [|done]. unfold no_text, str_or_none, truthy.
  by intros ->.
Qed.

(** X5. A value of the record is tested for truth, not for presence: a
    latitude of zero is treated like a missing one, so the ['location']
    group of the document never holds ['latitude'] for a place on the
    equator; and when the longitude, the accuracy radius and the time zone
    are zero, empty or missing as well, the whole group is left out. *)
Theorem zero_coordinate_is_left_out (env : Env) (ip : string) (w : World)
    (data : bytes) (response : CityResponse) (loc : Location) :
  validate_ip ip = true ->
  fs w !! DB_PATH = Some (File data) ->
  reader_city env data ip = inl response ->
  location response = Some loc ->
  no_float (latitude loc) = true ->
  exists doc,
    result (lookup_ip env ip w) = inl doc /\
    (forall fields,
        dict_get "location" doc = Some (VDict fields) ->
        dict_get "latitude" fields = None) /\
    (no_float (longitude loc) = true ->
     no_int (accuracy_radius loc) = true ->
     no_text (time_zone loc) = true ->
     dict_get "location" doc = None).
Proof.
  intros Hv Hdb Hcity Hloc Hlat. eexists.
  split; [by eapply lookup_ip_succeeds|].
  erewrite prune_group; [| apply build_result_NoDup | reflexivity].
  rewrite Hloc. cbn [of_group]. rewrite (float_or_none_absent _ Hlat).
  split.
  - intros fields. destruct (any _); [|done]. intros [= <-].
    cbn [List.filter keep_field is_none snd negb].
    apply dict_get_missing.
    repeat destruct (keep_field _); cbn; intros Hin;
      repeat (apply elem_of_cons in Hin as [[=]|Hin]);
      by apply elem_of_nil in Hin.
  - intros Hlon Hrad Htz.
    by rewrite (float_or_none_absent _ Hlon), (int_or_none_absent _ Hrad),
      (str_or_none_absent _ Htz).
Qed.

Lemma zero_coordinate_is_left_out_witness :
  exists doc,
    result (lookup_ip (env_reading record_equator) "192.0.2.1" Fixtures.serving)
      = inl doc /\
    dict_get "location" doc
      = Some (VDict [("longitude", VFloat 36.5%float);
                     ("accuracy_radius", VInt 50);
                     ("time_zone", VStr "Africa/Nairobi")]) /\
    forall fields,
      dict_get "location" doc = Some (VDict fields) ->
      dict_get "latitude" fields = None.
Proof.
  destruct (zero_coordinate_is_left_out (env_reading record_equator) "192.0.2.1"
              Fixtures.serving (Fixtures.b "mmdb-v1") record_equator
              {| latitude := Some 0%float;
                 longitude := Some 36.5%float;
                 accuracy_radius := Some 50;
                 time_zone := Some "Africa/Nairobi" |}
              eq_refl eq_refl eq_refl eq_refl eq_refl)
    as (doc & Hdoc & Hlat & _).
  exists doc. split; [exact Hdoc|]. split; [|exact Hlat].
  assert (inl doc = inl (B := exn) (prune (build_result "192.0.2.1" record_equator)))
    as [= ->] by (rewrite <- Hdoc; reflexivity).
  reflexivity.
Defined.

End DocumentFacts.

(** * Routes and answers *)

Module RouteFacts.
Import Server Trace RunFacts LookupFacts Answers AddressFacts.
Local Open Scope list_scope.

Lemma lookup_ip_world env ip w : world (lookup_ip env ip w) = w.
Proof.
  destruct w as [files n].
  pose proof (lookup_ip_cases env ip files n) as H. unfold spec in H.
  by destruct H as [-> _].
Qed.

Lemma lookup_ip_raises_400 env ip w e :
  result (lookup_ip env ip w) = inr e -> exists detail, e = HTTPException 400 detail.
Proof.
  destruct w as [files n].
  pose proof (lookup_ip_cases env ip files n) as H. unfold spec in H.
  destruct H as [_ [H | [H | H]]]; intros He.
  - destruct H as (_ & _ & H). rewrite H in He. injection He as <-. eauto.
  - destruct H as (_ & _ & _ & H). rewrite H in He. injection He as <-. eauto.
  - destruct H as (_ & _ & H).
    destruct (files !! DB_PATH) as [[data|]|]; [| |done].
    + destruct (reader_city env data ip); rewrite H in He; [done|].
      injection He as <-. eauto.
    + rewrite H in He. injection He as <-. eauto.
Qed.

(** X6. [lookup_ip] only reads: it leaves the files and the request
    count as they are, does nothing that can be observed except opening the
    database, once at most, and whatever goes wrong it raises an
    [HTTPException] with status 400, never another status and never another
    exception. *)
Theorem lookup_ip_only_reads (env : Env) (ip : string) (w : World) :
  let o := lookup_ip env ip w in
  world o = w /\
  (events o = [] \/ events o = [ReaderOpen DB_PATH]) /\
  (forall e, result o = inr e -> exists detail, e = HTTPException 400 detail).
Proof.
  cbn zeta. split; [apply lookup_ip_world|]. split; [|apply lookup_ip_raises_400].
  destruct w as [files n].
  pose proof (lookup_ip_cases env ip files n) as H. unfold spec in H.
  destruct H as [_ [H | [H | H]]].
  - left. by destruct H as (_ & ? & _).
  - left. by destruct H as (_ & _ & ? & _).
  - right. by destruct H as (_ & ? & _).
Qed.

Lemma template_segments :
  PyStr.split "/" "/openapi.json" = [""; "openapi.json"]%string /\
  PyStr.split "/" "/docs" = [""; "docs"]%string /\
  PyStr.split "/" "/docs/oauth2-redirect" = [""; "docs"; "oauth2-redirect"]%string /\
  PyStr.split "/" "/redoc" = [""; "redoc"]%string /\
  PyStr.split "/" "/" = [""; ""]%string /\
  PyStr.split "/" "/{ip_address}" = [""; "{ip_address}"]%string /\
  PyStr.split "/" "/database" = [""; "database"]%string.
Proof. by vm_compute. Qed.

Lemma is_param_facts :
  is_param "" = false /\ is_param "database" = false /\
  is_param "{ip_address}" = true /\ is_param "openapi.json" = false /\
  is_param "docs" = false /\ is_param "redoc" = false /\
  is_param "oauth2-redirect" = false.
Proof. by vm_compute. Qed.

(** whatever the template ['/database'] takes, the template
    ['/{ip_address}'] takes too *)
Lemma archive_route_shadowed url_path :
  match_template "/{ip_address}" url_path = None ->
  match_template "/database" url_path = None.
Proof.
  unfold match_template.
  destruct template_segments as (_ & _ & _ & _ & _ & -> & ->).
  destruct is_param_facts as (P0 & Pd & Pi & _).
  destruct (PyStr.split "/" url_path) as [|s0 [|s1 [|s2 rest]]];
    cbn [match_segments]; rewrite ?P0, ?Pd, ?Pi; try done.
  - destruct (String.eqb "" s0); [|done].
    destruct (String.eqb_spec "database" s1) as [<-|]; [|done]. done.
  - destruct (String.eqb "" s0); [|done].
    by destruct (String.eqb "database" s1).
Qed.

Lemma dispatch_never_archive url_path endpoint params :
  dispatch url_path = Some (endpoint, params) ->
  endpoint <> EP_download_database_archive.
Proof.
  unfold dispatch, routes. cbn [first_match].
  repeat match goal with
         | |- match match_template ?t _ with _ => _ end = _ -> _ =>
             destruct (match_template t url_path) eqn:?; [by intros [= <- <-]|]
         end;
    try done.
  all: match goal with
       | H : match_template "/{ip_address}" _ = None |- _ =>
           apply archive_route_shadowed in H; by rewrite H
       end.
Qed.

(** X7. No path reaches [download_database_archive]: the route
    ['/{ip_address}'] is registered before ['/database'] and takes every
    path that ['/database'] would take, so the router never gets to the
    later one. *)
Theorem archive_route_is_never_taken (url_path : string) :
  fst <$> dispatch url_path <> Some EP_download_database_archive.
Proof.
  destruct (dispatch url_path) as [[endpoint params]|] eqn:E; [|done].
  cbn. intros [= ->]. by eapply dispatch_never_archive.
Qed.







End RouteFacts.

(** * The address of the client *)

Module ClientFacts.
Import Server Trace RunFacts LookupFacts Answers AddressFacts MoreFixtures.
Local Open Scope list_scope.

(** X10. [lookup_client_ip] passes the header on as it is: when there is
    no usable X-Real-IP and X-Forwarded-For holds a list, that is a text
    with a comma (and no colon), the lookup is turned down with 400
    'Invalid IP address' without the database being opened.  The first
    entry of the list is not taken out. *)
Theorem forwarded_list_is_rejected (env : Env) (request : Request) (w : World)
    (v : string) :
  header_truthy (headers_get request "X-Real-IP") = false ->
  headers_get request "X-Forwarded-For" = Some v ->
  PyStr.contains "," v = true ->
  PyStr.contains ":" v = false ->
  let o := lookup_client_ip env request w in
  result o = inr (HTTPException 400 "400: Invalid IP address") /\
  events o = [] /\
  world o = w.
Proof.
  intros Hreal Hfwd Hcomma Hcolon. cbn zeta. unfold lookup_client_ip.
  rewrite Hreal, Hfwd.
  assert (header_truthy (Some v) = true) as -> by by destruct v.
  cbn [default]. apply lookup_ip_invalid.
  by apply (validate_ip_bad_char ",").
Qed.

Lemma forwarded_list_is_rejected_witness :
  validate_ip "203.0.113.7" = true /\
  result (lookup_client_ip Fixtures.env_release forwarded Fixtures.serving)
    = inr (HTTPException 400 "400: Invalid IP address").
Proof.
  split; [reflexivity|].
  apply (forwarded_list_is_rejected Fixtures.env_release forwarded Fixtures.serving
           "203.0.113.7, 198.51.100.2"); reflexivity.
Defined.

Lemma headers_get_none (request : Request) name :
  forallb (fun kv => negb (String.eqb (fst kv) (lower name))) (req_headers request)
    = true ->
  headers_get request name = None.
Proof.
  unfold headers_get. intros H.
  induction (req_headers request) as [|kv l IH]; [done|].
  cbn [forallb List.find] in *. apply andb_prop in H as [Hkv Hl].
  apply negb_true_iff in Hkv. rewrite Hkv. auto.
Qed.

(** X11. A request for ['/'] that carries neither X-Real-IP nor
    X-Forwarded-For is answered exactly as the lookup of the address of the
    peer, [request.client.host], is. *)
Theorem root_path_looks_up_the_peer (env : Env) (request : Request) (w : World) :
  req_path request = "/"%string ->
  forallb (fun kv => negb (proxy_header (fst kv))) (req_headers request) = true ->
  lookup_client_ip env request w = lookup_ip env (client_host request) w /\
  handle_get env request w = served_lookup env (client_host request) request w.
Proof.
  intros Hpath Hheaders.
  assert (headers_get request "X-Real-IP" = None) as Hreal.
  { apply headers_get_none. rewrite forallb_forall in *. intros kv Hkv.
    specialize (Hheaders kv Hkv). unfold proxy_header in Hheaders.
    apply negb_true_iff, orb_false_elim in Hheaders as [H _].
    by apply negb_true_iff. }
  assert (headers_get request "X-Forwarded-For" = None) as Hfwd.
  { apply headers_get_none. rewrite forallb_forall in *. intros kv Hkv.
    specialize (Hheaders kv Hkv). unfold proxy_header in Hheaders.
    apply negb_true_iff, orb_false_elim in Hheaders as [_ H].
    by apply negb_true_iff. }
  assert (lookup_client_ip env request = lookup_ip env (client_host request)) as E.
  { unfold lookup_client_ip. by rewrite Hreal, Hfwd. }
  split; [by rewrite E|].
  unfold handle_get. rewrite Hpath.
  change (dispatch "/") with (Some (EP_lookup_client_ip, @nil string)).
  unfold served_lookup, serve, call_endpoint. cbn [hd]. by rewrite E.
Qed.

Lemma root_path_looks_up_the_peer_witness :
  handle_get Fixtures.env_release (Fixtures.get "/") Fixtures.serving
  = served_lookup Fixtures.env_release "203.0.113.7" (Fixtures.get "/")
      Fixtures.serving.
Proof.
  apply (root_path_looks_up_the_peer Fixtures.env_release (Fixtures.get "/")
           Fixtures.serving); reflexivity.
Defined.

End ClientFacts.

(** * What a refresh leaves behind *)

Module InstallFacts.
Import Server Trace RunFacts RefreshFacts LookupFacts Fixtures.
Import Installs MoreFixtures.
Local Open Scope list_scope.

Ltac given_answer :=
  unfold provider_answer, license_key in *; cbn [requests fs] in *.

(** the leaves of a run: contradictions among the facts collected on the
    way, and look-ups in a file system after some writes *)
Ltac settle :=
  leaf;
  try (repeat match goal with H : is_Some _ |- _ => destruct H end;
       simplify_map_eq; congruence).


(** X12. Without a license key (unset or empty) [download_database]
    gives up before anything else happens: it answers [False], makes no
    request, touches no file, and logs the one line 'Error updating
    database: MaxMind license key not configured'. *)
Theorem missing_key_stops_refresh (env : Env) (w : World) :
  PyStr.is_empty (license_key env) = true ->
  let o := download_database env w in
  result o = inl false /\
  world o = w /\
  events o
    = [LogError "Error updating database: MaxMind license key not configured"].
Proof.
  unfold license_key. intros Hkey. cbn zeta. destruct w as [files n].
  change (spec (download_database env) {| fs := files; requests := n |}
            (fun r w' evs =>
               r = inl false /\
               w' = {| fs := files; requests := n |} /\
               evs = [LogError "Error updating database: MaxMind license key not configured"])).
  apply spec_download_database. unfold download_database_body.
  io_step. io_step; [|congruence]. done.
Qed.

Lemma missing_key_stops_refresh_witness :
  result (download_database env_unconfigured serving) = inl false /\
  world (download_database env_unconfigured serving) = serving.
Proof.
  destruct (missing_key_stops_refresh env_unconfigured serving eq_refl)
    as (H1 & H2 & _).
  split; [exact H1 | exact H2].
Defined.





















(** once the provider has answered 200 the archive path exists *)
Lemma archive_exists_after_download env files n body :
  PyStr.is_empty (license_key env) = false ->
  provider_answer env {| fs := files; requests := n |} = HttpResponse 200 body ->
  spec (download_database env) {| fs := files; requests := n |}
    (fun r w' evs => is_Some (fs w' !! db_archive)).
Proof.
  intros Hkey Hget. given_answer.
  apply spec_download_database. unfold download_database_body. io_run.
  all: settle.
  all: try (by eexists).
  all: by simplify_map_eq.
Qed.

(** X19. Once the provider has answered 200, [download_database_archive]
    returns the file response for the archive path (file name
    GeoLite2-City.tar.gz, media type application/gzip) and changes
    nothing, whether or not the body could be unpacked and whether the
    attempt answered [True] or [False]. *)
Theorem archive_is_offered_after_download (env : Env) (files : FS) (n : nat)
    (body : bytes) :
  let w := {| fs := files; requests := n |} in
  let o := download_database env w in
  PyStr.is_empty (license_key env) = false ->
  provider_answer env w = HttpResponse 200 body ->
  result (download_database_archive (world o))
  = inl (FileResponse db_archive "GeoLite2-City.tar.gz" "application/gzip") /\
  world (download_database_archive (world o)) = world o.
Proof.
  intros w o Hkey Hget. subst o w.
  pose proof (archive_exists_after_download env files n body Hkey Hget) as H.
  unfold spec in H.
  destruct (world (download_database env {| fs := files; requests := n |}))
    as [files' n'].
  cbn [fs] in H.
  change (spec download_database_archive {| fs := files'; requests := n' |}
            (fun r w' evs =>
               r = inl (FileResponse db_archive "GeoLite2-City.tar.gz"
                          "application/gzip") /\
               w' = {| fs := files'; requests := n' |})).
  unfold download_database_archive. io_run; [|done].
  match goal with
  | Hgone : negb _ = true |- _ =>
      apply negb_true_iff, bool_decide_eq_false in Hgone; done
  end.
Qed.

Lemma archive_is_offered_after_download_witness :
  result (download_database_archive fresh)
    = inr (HTTPException 404 "Database archive not found") /\
  result (download_database_archive (world (download_database env_garbage fresh)))
    = inl (FileResponse db_archive "GeoLite2-City.tar.gz" "application/gzip").
Proof.
  split; [reflexivity|].
  apply (archive_is_offered_after_download env_garbage (fs fresh) 0
           (b "<html>busy</html>")); reflexivity.
Defined.

(** an attempt makes one request when a key is configured, and none, and
    no change, when there is none *)
Lemma download_database_requests env files n :
  spec (download_database env) {| fs := files; requests := n |}
    (fun r w' evs =>
       if PyStr.is_empty (license_key env)
       then w' = {| fs := files; requests := n |} /\ count is_http_get evs = 0%nat
       else requests w' = S n /\ count is_http_get evs = 1%nat).
Proof.
  unfold license_key.
  apply spec_download_database. unfold download_database_body. io_run.
  all: match goal with
       | H : PyStr.is_empty _ = _ |- _ => rewrite H
       end.
  all: split; [done|].
  all: unfold count; rewrite ?List.filter_app; cbn [List.filter is_http_get];
    rewrite ?filter_write_states by done; reflexivity.
Qed.

Lemma download_database_never_sleeps env w :
  List.filter is_sleep (events (download_database env w)) = [].
Proof.
  destruct w as [files n].
  pose proof (download_database_contained env files n) as H. unfold spec in H.
  destruct H as (_ & _ & _ & _ & H). unfold count in H.
  by apply nil_length_inv.
Qed.

(** X20. [update_scheduler] sleeps once a round, each time for
    [UPDATE_INTERVAL] = 86400 seconds, and makes one request a round when a
    license key is configured, failed attempts included; without a key it
    makes no request at all and leaves everything as it is, round after
    round. *)
Theorem scheduler_asks_once_a_round (env : Env) (ticks : nat) (w : World) :
  let o := update_scheduler env ticks w in
  List.filter is_sleep (events o) = repeat (Sleep 86400) ticks /\
  if PyStr.is_empty (license_key env)
  then world o = w /\ count is_http_get (events o) = 0%nat
  else requests (world o) = (requests w + ticks)%nat /\
       count is_http_get (events o) = ticks.
Proof.
  cbn zeta. revert w. induction ticks as [|ticks IH]; intros w.
  - cbn. destruct (PyStr.is_empty _); split; try done.
    all: try (split; [lia | done]).
  - cbn [update_scheduler]. destruct w as [files n].
    pose proof (download_database_contained env files n) as Hd. unfold spec in Hd.
    destruct Hd as (ok & Hok & _).
    pose proof (download_database_requests env files n) as Hr. unfold spec in Hr.
    pose proof (download_database_never_sleeps env {| fs := files; requests := n |})
      as Hs.
    rewrite (bind_returns _ _ _ _ Hok).
    rewrite (bind_returns (asyncio_sleep _) _ _ tt eq_refl).
    cbn [result events world asyncio_sleep emit].
    specialize (IH (world (download_database env {| fs := files; requests := n |}))).
    destruct IH as [IHs IHr]. split.
    + rewrite !List.filter_app, Hs, IHs. reflexivity.
    + unfold count in *. rewrite !List.filter_app, !length_app.
      cbn [List.filter is_http_get length requests].
      destruct (PyStr.is_empty (license_key env)).
      * destruct Hr as [Hw Hc], IHr as [IHw IHc].
        rewrite IHw, IHc, Hc, Hw. done.
      * destruct Hr as [Hw Hc], IHr as [IHw IHc].
        rewrite IHw, IHc, Hc, Hw. split; lia.
Qed.

End InstallFacts.
